(** * packages.js: tracking-number validation for UPS, FedEx and USPS

    A shallow embedding of [src/packages.js] and the properties of its four
    checksum validators, of the dispatcher [IsTrackingNumber] and of the URL
    builder [GetTrackingURL].

    Conventions of the embedding:
    - a JavaScript string is the list of its UTF-16 code units, each a [Z];
    - a JavaScript number is [option Z], [None] standing for [NaN].  Every
      number the program computes is an integer far below 2^53, so the
      double arithmetic of the engine is exact and integer arithmetic
      models it;
    - [undefined] is [None] in an [option];
    - [console.log] appends a line to the console, carried by the small
      writer monad [Console]. *)

From Stdlib Require Import ZArith List Bool Lia.
From Stdlib Require Ascii String.
Import ListNotations.
Import String.StringSyntax.
Delimit Scope string_scope with string.
Bind Scope string_scope with String.string.

Local Open Scope Z_scope.

(** ** JavaScript strings *)

Module JS.

Definition jsstring : Type := list Z.

(** A string literal of the source, as code units. *)
Fixpoint lit (s : String.string) : jsstring :=
  match s with
  | String.EmptyString => []
  | String.String a s' => Z.of_nat (Ascii.nat_of_ascii a) :: lit s'
  end.

Definition len (s : jsstring) : Z := Z.of_nat (length s).

(** Strict equality of two strings: same code units. *)
Fixpoint str_eqb (s t : jsstring) : bool :=
  match s, t with
  | [], [] => true
  | a :: s', b :: t' => (a =? b) && str_eqb s' t'
  | _, _ => false
  end.

(** WhiteSpace and LineTerminator of ECMAScript: what [String.prototype.trim]
    strips and what the string-to-number conversion skips. *)
Definition is_white_space (c : Z) : bool :=
  (c =? 9) || (c =? 10) || (c =? 11) || (c =? 12) || (c =? 13) || (c =? 32)
  || (c =? 160) || (c =? 5760) || ((8192 <=? c) && (c <=? 8202))
  || (c =? 8232) || (c =? 8233) || (c =? 8239) || (c =? 8287)
  || (c =? 12288) || (c =? 65279).

Fixpoint trimStart (s : jsstring) : jsstring :=
  match s with
  | [] => []
  | c :: s' => if is_white_space c then trimStart s' else s
  end.

Definition trimEnd (s : jsstring) : jsstring := rev (trimStart (rev s)).

(** [s.trim()].  The source installs its own [trim] only where the engine
    has none; its pattern [\s] strips the same characters. *)
Definition trim (s : jsstring) : jsstring := trimEnd (trimStart s).

(** [s.substr(start, length)]: a negative start counts from the end, and
    the slice is clamped to the string. *)
Definition substr (s : jsstring) (start length : Z) : jsstring :=
  let st := if start <? 0 then Z.max (len s + start) 0 else start in
  firstn (Z.to_nat length) (skipn (Z.to_nat st) s).

(** [s.charAt(i)]: the one-character string at [i], empty out of range. *)
Definition charAt (s : jsstring) (i : Z) : jsstring :=
  if i <? 0 then []
  else match nth_error s (Z.to_nat i) with
       | Some c => [c]
       | None => []
       end.

(** [s.charCodeAt(i)]: the code unit at [i], [NaN] out of range. *)
Definition charCodeAt (s : jsstring) (i : Z) : option Z :=
  if i <? 0 then None else nth_error s (Z.to_nat i).

(** [s[i]]: the one-character string at [i], [undefined] out of range. *)
Definition index (s : jsstring) (i : Z) : option jsstring :=
  if i <? 0 then None
  else match nth_error s (Z.to_nat i) with
       | Some c => Some [c]
       | None => None
       end.

Fixpoint startsWith (s sub : jsstring) : bool :=
  match sub, s with
  | [], _ => true
  | b :: sub', a :: s' => (a =? b) && startsWith s' sub'
  | _ :: _, [] => false
  end.

Fixpoint indexOf_from (s sub : jsstring) (pos : Z) : Z :=
  if startsWith s sub then pos
  else match s with
       | [] => -1
       | _ :: s' => indexOf_from s' sub (pos + 1)
       end.

(** [s.indexOf(sub)]: first position of [sub] in [s], or -1. *)
Definition indexOf (s sub : jsstring) : Z := indexOf_from s sub 0.

Fixpoint array_indexOf_from (xs : list jsstring) (x : jsstring) (pos : Z) : Z :=
  match xs with
  | [] => -1
  | y :: xs' => if str_eqb y x then pos else array_indexOf_from xs' x (pos + 1)
  end.

(** [xs.indexOf(x)] on an array of strings (strict equality). *)
Definition array_indexOf (xs : list jsstring) (x : jsstring) : Z :=
  array_indexOf_from xs x 0.

(** ** JavaScript numbers *)

Definition number : Type := option Z.

Definition NaN : number := None.

Definition lift2 (f : Z -> Z -> Z) (x y : number) : number :=
  match x, y with
  | Some a, Some b => Some (f a b)
  | _, _ => NaN
  end.

Definition add : number -> number -> number := lift2 Z.add.
Definition sub : number -> number -> number := lift2 Z.sub.
Definition mul : number -> number -> number := lift2 Z.mul.

(** [x % y]: the remainder has the sign of the dividend; [NaN] when the
    divisor is zero. *)
Definition rem (x y : number) : number :=
  match x, y with
  | Some a, Some b => if b =? 0 then NaN else Some (Z.rem a b)
  | _, _ => NaN
  end.

(** [Math.floor(x / y)] for a nonzero [y]: the quotient rounded down. *)
Definition floor_div (x y : number) : number :=
  match x, y with
  | Some a, Some b => if b =? 0 then NaN else Some (a / b)
  | _, _ => NaN
  end.

(** [x == y] and [x > y] on numbers: false as soon as one side is [NaN]. *)
Definition num_eqb (x y : number) : bool :=
  match x, y with
  | Some a, Some b => a =? b
  | _, _ => false
  end.

Definition num_gtb (x y : number) : bool :=
  match x, y with
  | Some a, Some b => a >? b
  | _, _ => false
  end.

Definition is_digit (c : Z) : bool := (48 <=? c) && (c <=? 57).

(** [Number(s)], the string-to-number conversion, for the strings this
    program converts: single characters (and the empty string).  White space
    is skipped, the empty string is 0, a decimal digit is its value and any
    other character is [NaN].  Longer numeric literals (signs, fractions,
    exponents, hexadecimal) never reach a conversion in this program and are
    not modelled: they read as [NaN] here. *)
Definition Number (s : jsstring) : number :=
  match trim s with
  | [] => Some 0
  | [c] => if is_digit c then Some (c - 48) else NaN
  | _ => NaN
  end.

(** [x == s] for a number [x] and [s] a string or [undefined]: the string is
    converted with [Number]; [undefined] equals no number. *)
Definition loose_eqb (x : number) (s : option jsstring) : bool :=
  match s with
  | Some s' => num_eqb x (Number s')
  | None => false
  end.

(** [x == s] for [x] a string or [undefined] and [s] a string. *)
Definition str_loose_eqb (x : option jsstring) (s : jsstring) : bool :=
  match x with
  | Some x' => str_eqb x' s
  | None => false
  end.

(** [xs[i]] on an array of numbers: [undefined] out of range, which
    arithmetic turns into [NaN]. *)
Definition array_get (xs : list Z) (i : number) : number :=
  match i with
  | Some k => if k <? 0 then NaN else nth_error xs (Z.to_nat k)
  | None => NaN
  end.

End JS.

Import JS.

(** ** The console *)

Definition Console (A : Type) : Type := (list jsstring * A)%type.

Definition ret {A : Type} (a : A) : Console A := ([], a).

Definition bind {A B : Type} (m : Console A) (f : A -> Console B) : Console B :=
  let (o1, a) := m in
  let (o2, b) := f a in
  (o1 ++ o2, b).

Definition console_log (s : jsstring) : Console unit := ([s], tt).

(** The value a computation returns, and what it printed. *)
Definition value {A : Type} (m : Console A) : A := snd m.
Definition printed {A : Type} (m : Console A) : list jsstring := fst m.

Notation "x <- m ;; k" := (bind m (fun x => k))
  (at level 61, m at next level, right associativity).
Notation "m ;;; k" := (bind m (fun _ => k))
  (at level 61, right associativity).

(** ** The validators of [src/packages.js] *)

(** *** UPS *)

Definition ValidChars : jsstring := lit "0123456789".

(** One round of the loop of [_validUPS], at index [i]. *)
Definition ups_step (number : jsstring) (i : Z) (iRunningTotal : JS.number)
  : JS.number :=
  let c := charAt number i in
  if Z.rem (i + 1) 2 =? 0 then
    (* even index value *)
    if negb (indexOf ValidChars c =? -1) then
      add iRunningTotal (mul (Some 2) (Number c))
    else
      add iRunningTotal (rem (sub (charCodeAt number i) (Some 63)) (Some 10))
  else
    (* character is at an odd position *)
    if negb (indexOf ValidChars c =? -1) then
      add iRunningTotal (Number c)
    else
      let n := rem (sub (charCodeAt number i) (Some 63)) (Some 10) in
      add iRunningTotal
          (sub (mul (Some 2) n) (mul (Some 9) (floor_div n (Some 5)))).

(** [for (var i = i0; i < number.length; i++)], with [n] the number of
    rounds left, [number.length - i]. *)
Fixpoint ups_for (number : jsstring) (n : nat) (i : Z)
  (iRunningTotal : JS.number) : JS.number :=
  match n with
  | O => iRunningTotal
  | S n' => ups_for number n' (i + 1) (ups_step number i iRunningTotal)
  end.

(** The running total of a 15-character body. *)
Definition ups_total (number : jsstring) : JS.number :=
  ups_for number (length number) 0 (Some 0).

Definition _validUPS (number : jsstring) : Console bool :=
  let number := trim number in
  if negb (len number =? 18) then ret false else
  let check := substr number 17 1 in
  (* First Two Digits Must Be 1Z *)
  if negb (str_eqb (substr number 0 2) (lit "1Z")) then ret false else
  (* Remaining Characters To Check *)
  let number := substr number 2 15 in
  console_log number ;;;
  let iRunningTotal := ups_total number in
  let digit := rem iRunningTotal (Some 10) in
  if negb (loose_eqb digit (Some check)) && num_gtb digit (Some 0) then
    let digit := sub (Some 10) digit in
    ret (loose_eqb digit (Some check))
  else
    ret true.

(** *** FedEx Express *)

Definition values : list Z := [3; 1; 7].
Definition validnumbers : jsstring := lit "0123456789".

(** [for (var i = i0; i < 11; i++)], with [n] rounds left; [None] is the
    [return false] on a character that is not a digit. *)
Fixpoint fedexExpress_for (number : jsstring) (n : nat) (i : Z)
  (total : JS.number) : option JS.number :=
  match n with
  | O => Some total
  | S n' =>
      let c := charAt number i in
      if indexOf validnumbers c =? -1 then None
      else
        let k := Number c in
        fedexExpress_for number n' (i + 1)
          (add total (mul k (array_get values (Some (Z.rem i 3)))))
  end.

Definition _validFedexExpress (number : jsstring) : bool :=
  let number := trim number in
  if negb (len number =? 12) then false else
  match fedexExpress_for number 11 0 (Some 0) with
  | None => false
  | Some total =>
      (* Calculate check digit *)
      let check := rem total (Some 11) in
      let check := if num_eqb check (Some 10) then Some 0 else check in
      loose_eqb check (index number 11)
  end.

(** *** FedEx Ground *)

(** [for (var i = i0; i >= 0; i--)], with [n] rounds left; the result is
    [(evenTotal, oddTotal)], or [None] for the [return false]. *)
Fixpoint fedexGround_for (number : jsstring) (n : nat) (i : Z)
  (evenTotal oddTotal : JS.number) : option (JS.number * JS.number) :=
  match n with
  | O => Some (evenTotal, oddTotal)
  | S n' =>
      let c := charAt number i in
      if indexOf validnumbers c =? -1 then None
      else if Z.rem (15 - i) 2 =? 0 then
        fedexGround_for number n' (i - 1) (add evenTotal (Number c)) oddTotal
      else
        fedexGround_for number n' (i - 1) evenTotal (add oddTotal (Number c))
  end.

(** The assignments to [valid_prefixes] and [valid_prefix] create globals
    that nothing else reads; they are local bindings here. *)
Definition _validFedexGround (number : jsstring) : bool :=
  let number := trim number in
  let valid_prefixes := [lit "96"; lit "00"] in
  if (len number <? 15)
     || (array_indexOf valid_prefixes (substr number 0 2) =? -1)
  then false else
  let number := substr number (len number - 15) 15 in
  match fedexGround_for number 14 13 (Some 0) (Some 0) with
  | None => false
  | Some (evenTotal, oddTotal) =>
      (* We calculate the check digit *)
      let total := add (mul evenTotal (Some 3)) oddTotal in
      let check := sub (Some 10) (rem total (Some 10)) in
      loose_eqb check (index number 14)
  end.

(** *** USPS *)

Fixpoint usps_for (number : jsstring) (n : nat) (i : Z)
  (evenTotal oddTotal : JS.number) : option (JS.number * JS.number) :=
  match n with
  | O => Some (evenTotal, oddTotal)
  | S n' =>
      let c := charAt number i in
      if indexOf validnumbers c =? -1 then None
      else if Z.rem (22 - i) 2 =? 0 then
        usps_for number n' (i - 1) (add evenTotal (Number c)) oddTotal
      else
        usps_for number n' (i - 1) evenTotal (add oddTotal (Number c))
  end.

Definition _validUSPS (number : jsstring) : bool :=
  let number := trim number in
  let valid_prefix :=
    [lit "91"; lit "71"; lit "73"; lit "77"; lit "81"] in
  if (len number <? 22)
     || (array_indexOf valid_prefix (substr number 0 2) =? -1)
     || str_eqb (substr number 0 3) (lit "420")
  then false else
  let number := substr number (len number - 22) 22 in
  match usps_for number 21 20 (Some 0) (Some 0) with
  | None => false
  | Some (evenTotal, oddTotal) =>
      (* We calculate the check digit *)
      let total := add (mul evenTotal (Some 3)) oddTotal in
      let check := sub (Some 10) (rem total (Some 10)) in
      loose_eqb check (index number 21)
  end.

(** *** The dispatcher and the URL builder *)

Definition IsTrackingNumber (number : jsstring) : Console (option jsstring) :=
  ups <- _validUPS number ;;
  if ups then ret (Some (lit "ups"))
  else if _validFedexExpress number || _validFedexGround number then
    ret (Some (lit "fedex"))
  else if _validUSPS number then
    ret (Some (lit "usps"))
  else
    ret None.

Definition GetTrackingURL (number : jsstring) : Console (option jsstring) :=
  track <- IsTrackingNumber number ;;
  if str_loose_eqb track (lit "ups") then
    ret (Some (lit "http://wwwapps.ups.com/tracking/tracking.cgi?tracknum="
               ++ number))
  else if str_loose_eqb track (lit "fedex") then
    ret (Some (lit "http://www.fedex.com/Tracking?tracknumbers=" ++ number))
  else if str_loose_eqb track (lit "usps") then
    ret (Some (lit "http://trkcnfrm1.smi.usps.com/PTSInternetWeb/InterLabelInquiry.do?strOrigTrackNum="
               ++ number))
  else
    ret None.

(** ** Definitions used by the statements *)

(** *** Characters *)

(** A letter, and the digit a character stands for. *)
Definition is_letter (c : Z) : bool :=
  ((65 <=? c) && (c <=? 90)) || ((97 <=? c) && (c <=? 122)).

Definition digit_value (c : Z) : option Z :=
  if is_digit c then Some (c - 48) else None.

(** *** UPS *)

(** What [_validUPS] answers once the running total is known: the code
    after its loop, for the remainder [digit] and the check character. *)
Definition ups_verdict (digit : JS.number) (check : jsstring) : bool :=
  if negb (loose_eqb digit (Some check)) && num_gtb digit (Some 0) then
    loose_eqb (sub (Some 10) digit) (Some check)
  else true.

(** The digit a character that is not a digit is folded into. *)
Definition ups_fold (c : Z) : Z := Z.rem (c - 63) 10.

(** What the character [c] at the 1-based position [pos] of the body adds
    to the running total. *)
Definition ups_contribution (pos c : Z) : Z :=
  if Z.rem pos 2 =? 0 then
    if is_digit c then 2 * (c - 48) else ups_fold c
  else
    if is_digit c then c - 48
    else 2 * ups_fold c - 9 * (ups_fold c / 5).

(** The contributions of the characters [cs], the first of them at
    position [pos]. *)
Fixpoint ups_sum (pos : Z) (cs : list Z) : Z :=
  match cs with
  | [] => 0
  | c :: cs' => ups_contribution pos c + ups_sum (pos + 1) cs'
  end.

(** *** FedEx Express *)

(** The weight of position [i]: [3, 1, 7] taken cyclically. *)
Definition express_weight (i : Z) : Z := nth (Z.to_nat (i mod 3)) values 0.

(** The sum of the digits [cs], the first of them at position [i], each
    times the weight of its position. *)
Fixpoint express_sum (i : Z) (cs : list Z) : Z :=
  match cs with
  | [] => 0
  | c :: cs' => (c - 48) * express_weight i + express_sum (i + 1) cs'
  end.

(** The check digit of an 11-digit body: the sum modulo 11, 10 read as 0. *)
Definition express_check (cs : list Z) : Z :=
  let r := express_sum 0 cs mod 11 in
  if r =? 10 then 0 else r.

(** *** FedEx Ground and USPS, for a window of width [w] (15 or 22) *)

(** The sum of the digits of [cs] whose position satisfies [p], the first
    of them at position [i]. *)
Fixpoint sum_where (p : Z -> bool) (i : Z) (cs : list Z) : Z :=
  match cs with
  | [] => 0
  | c :: cs' => (if p i then c - 48 else 0) + sum_where p (i + 1) cs'
  end.

(** Position [i] of the window is at an even distance from the right. *)
Definition even_place (w i : Z) : bool := (w - i) mod 2 =? 0.

Definition even_sum (w : Z) (cs : list Z) : Z := sum_where (even_place w) 0 cs.
Definition odd_sum (w : Z) (cs : list Z) : Z :=
  sum_where (fun i => negb (even_place w i)) 0 cs.

(** The weighted total of the digits of a window. *)
Definition rtl_total (w : Z) (cs : list Z) : Z :=
  3 * even_sum w cs + odd_sum w cs.

(** The loop the two validators share, for any window width. *)
Fixpoint rtl_for (w : Z) (number : jsstring) (n : nat) (i : Z)
  (evenTotal oddTotal : JS.number) : option (JS.number * JS.number) :=
  match n with
  | O => Some (evenTotal, oddTotal)
  | S n' =>
      let c := charAt number i in
      if indexOf validnumbers c =? -1 then None
      else if Z.rem (w - i) 2 =? 0 then
        rtl_for w number n' (i - 1) (add evenTotal (Number c)) oddTotal
      else
        rtl_for w number n' (i - 1) evenTotal (add oddTotal (Number c))
  end.

(** The digits [rs], read from the right of a window, weighted 3 and 1 in
    turn; [three] tells whether the first of them counts three times. *)
Fixpoint alt31 (three : bool) (rs : list Z) : Z :=
  match rs with
  | [] => 0
  | c :: rs' => (if three then 3 else 1) * (c - 48) + alt31 (negb three) rs'
  end.

(** The code after the loop of [_validFedexGround] and [_validUSPS], on a
    window of [n + 1] characters. *)
Definition rtl_verdict (w : Z) (number : jsstring) (n : nat) : bool :=
  match rtl_for w number n (Z.of_nat n - 1) (Some 0) (Some 0) with
  | None => false
  | Some (evenTotal, oddTotal) =>
      let total := add (mul evenTotal (Some 3)) oddTotal in
      let check := sub (Some 10) (rem total (Some 10)) in
      loose_eqb check (index number (Z.of_nat n))
  end.

(** [_validUSPS] with the test [number.substr(0,3) == "420"] taken out of
    its guard, and nothing else changed. *)
Definition _validUSPS_without_420 (number : jsstring) : bool :=
  let number := trim number in
  let valid_prefix :=
    [lit "91"; lit "71"; lit "73"; lit "77"; lit "81"] in
  if (len number <? 22)
     || (array_indexOf valid_prefix (substr number 0 2) =? -1)
  then false else
  let number := substr number (len number - 22) 22 in
  match usps_for number 21 20 (Some 0) (Some 0) with
  | None => false
  | Some (evenTotal, oddTotal) =>
      let total := add (mul evenTotal (Some 3)) oddTotal in
      let check := sub (Some 10) (rem total (Some 10)) in
      loose_eqb check (index number 21)
  end.

(** *** The length-and-prefix gates

    The conditions each validator tests before its checksum, on the
    trimmed string [t]. *)

Definition ups_gate (t : jsstring) : bool :=
  (len t =? 18) && str_eqb (substr t 0 2) (lit "1Z").

Definition fedexExpress_gate (t : jsstring) : bool :=
  (len t =? 12) && forallb is_digit (substr t 0 11).

Definition fedexGround_gate (t : jsstring) : bool :=
  negb ((len t <? 15)
        || (array_indexOf [lit "96"; lit "00"] (substr t 0 2) =? -1)).

Definition usps_gate (t : jsstring) : bool :=
  negb ((len t <? 22)
        || (array_indexOf [lit "91"; lit "71"; lit "73"; lit "77"; lit "81"]
                          (substr t 0 2) =? -1)
        || str_eqb (substr t 0 3) (lit "420")).

(** *** Sample inputs *)

(** A FedEx Ground code and a USPS code whose weighted totals are 30, and
    whose last character is 0. *)
Definition ground_sample : jsstring := lit "963000000000000".
Definition usps_sample : jsstring := lit "9102000000000000000000".

(** The UPS number of the carrier's documentation, and the same number
    with an underscore in its body. *)
Definition ups_sample : jsstring := lit "1Z999AA10123456784".
Definition ups_underscore_sample : jsstring := lit "1Z999_A10123456784".

(** ** Strings: trimming, slicing, searching *)

Section StringFacts.

Lemma trimStart_head (s r : jsstring) (c : Z) :
  trimStart s = c :: r -> is_white_space c = false.
Proof.
  induction s as [|a s IH]; simpl; [discriminate|].
  destruct (is_white_space a) eqn:Ea; auto.
  intros H; injection H as -> _; exact Ea.
Qed.

Lemma trimEnd_last (s t : jsstring) (c : Z) :
  trimEnd s = t ++ [c] -> is_white_space c = false.
Proof.
  unfold trimEnd; intros H.
  apply (f_equal (@rev Z)) in H.
  rewrite rev_involutive, rev_app_distr in H; simpl in H.
  eapply trimStart_head; eassumption.
Qed.

(** The last character of a trimmed string is not white space. *)
Lemma trim_last (s t : jsstring) (c : Z) :
  trim s = t ++ [c] -> is_white_space c = false.
Proof. unfold trim; apply trimEnd_last. Qed.

Lemma trimStart_id (a : Z) (s : jsstring) :
  is_white_space a = false -> trimStart (a :: s) = a :: s.
Proof. intros H; simpl; rewrite H; reflexivity. Qed.

(** A string that neither starts nor ends with white space is its own
    trimmed form. *)
Lemma trim_id (a b : Z) (m : jsstring) :
  is_white_space a = false -> is_white_space b = false ->
  trim (a :: m ++ [b]) = a :: m ++ [b].
Proof.
  intros Ha Hb; unfold trim, trimEnd.
  rewrite (trimStart_id a) by assumption.
  assert (E : rev (a :: m ++ [b]) = b :: rev (a :: m))
    by (change (a :: m ++ [b]) with ((a :: m) ++ [b]);
        rewrite rev_app_distr; reflexivity).
  rewrite E, (trimStart_id b), <- E by assumption.
  apply rev_involutive.
Qed.

Lemma len_nonneg (s : jsstring) : 0 <= len s.
Proof. unfold len; lia. Qed.

Lemma digit_not_white_space (c : Z) :
  is_digit c = true -> is_white_space c = false.
Proof. unfold is_digit, is_white_space; lia. Qed.

Lemma Number_char (c : Z) :
  Number [c] =
  if is_white_space c then Some 0
  else if is_digit c then Some (c - 48) else NaN.
Proof.
  unfold Number, trim, trimEnd; simpl.
  destruct (is_white_space c) eqn:E; simpl; rewrite ?E; reflexivity.
Qed.

Lemma Number_digit (c : Z) :
  is_digit c = true -> Number [c] = Some (c - 48).
Proof.
  intros H; rewrite Number_char, (digit_not_white_space c H), H; reflexivity.
Qed.

(** Searching the digits for one character tells whether it is a digit. *)
Lemma indexOf_digits (c : Z) :
  (indexOf validnumbers [c] =? -1) = negb (is_digit c).
Proof.
  change validnumbers with [48; 49; 50; 51; 52; 53; 54; 55; 56; 57].
  unfold indexOf, is_digit; cbn [indexOf_from startsWith].
  repeat match goal with
         | |- context [?a =? c] => destruct (Z.eqb_spec a c); cbn [andb]
         end; cbn; lia.
Qed.

Lemma charAt_nth (s : jsstring) (k : nat) (c : Z) :
  nth_error s k = Some c -> charAt s (Z.of_nat k) = [c].
Proof.
  intros H; unfold charAt.
  destruct (Z.ltb_spec (Z.of_nat k) 0); [lia|].
  rewrite Nat2Z.id, H; reflexivity.
Qed.

Lemma charCodeAt_nth (s : jsstring) (k : nat) (c : Z) :
  nth_error s k = Some c -> charCodeAt s (Z.of_nat k) = Some c.
Proof.
  intros H; unfold charCodeAt.
  destruct (Z.ltb_spec (Z.of_nat k) 0); [lia|].
  rewrite Nat2Z.id, H; reflexivity.
Qed.

Lemma index_nth (s : jsstring) (k : nat) (c : Z) :
  nth_error s k = Some c -> index s (Z.of_nat k) = Some [c].
Proof.
  intros H; unfold index.
  destruct (Z.ltb_spec (Z.of_nat k) 0); [lia|].
  rewrite Nat2Z.id, H; reflexivity.
Qed.

Lemma str_eqb_eq (s t : jsstring) : str_eqb s t = true <-> s = t.
Proof.
  revert t; induction s as [|a s IH]; intros [|b t]; simpl;
    try (split; [discriminate | congruence]); [tauto|].
  rewrite andb_true_iff, Z.eqb_eq, IH.
  split; [intros [-> ->]; reflexivity | intros H; injection H; auto].
Qed.

Lemma substr_from_0 (s : jsstring) (n : nat) :
  substr s 0 (Z.of_nat n) = firstn n s.
Proof. unfold substr; simpl; rewrite Nat2Z.id; reflexivity. Qed.

End StringFacts.

(** ** UPS: the loop and the verdict *)

Section UPS.

Lemma validUPS_unfold (s : jsstring) :
  len (trim s) = 18 ->
  substr (trim s) 0 2 = lit "1Z" ->
  value (_validUPS s) =
  ups_verdict (rem (ups_total (substr (trim s) 2 15)) (Some 10))
              (substr (trim s) 17 1).
Proof.
  intros Hl Hp; unfold _validUPS, ups_verdict.
  rewrite Hl, Hp.
  change (negb (18 =? 18)) with false.
  change (negb (str_eqb (lit "1Z") (lit "1Z"))) with false.
  cbv iota zeta.
  destruct (negb _ && _); reflexivity.
Qed.

Lemma validUPS_rejects (s : jsstring) :
  len (trim s) <> 18 \/ substr (trim s) 0 2 <> lit "1Z" ->
  value (_validUPS s) = false.
Proof.
  intros H; unfold _validUPS.
  destruct (Z.eqb_spec (len (trim s)) 18) as [Hl|Hl]; cbn [negb];
    [|reflexivity].
  destruct (str_eqb (substr (trim s) 0 2) (lit "1Z")) eqn:Hp; cbn [negb];
    [|reflexivity].
  apply str_eqb_eq in Hp; tauto.
Qed.

(** Every round of the loop yields a number: a digit adds its value (or
    twice its value), any other character its folded code. *)
Lemma ups_step_some (number : jsstring) (k : nat) (c total : Z) :
  nth_error number k = Some c ->
  exists z, ups_step number (Z.of_nat k) (Some total) = Some z.
Proof.
  intros H; unfold ups_step.
  rewrite (charAt_nth _ _ _ H), (charCodeAt_nth _ _ _ H).
  change ValidChars with validnumbers; rewrite indexOf_digits, negb_involutive.
  destruct (is_digit c) eqn:E; [rewrite (Number_digit c E)|];
    destruct (Z.rem (Z.of_nat k + 1) 2 =? 0); cbn; eauto.
Qed.

Lemma ups_for_some (number : jsstring) (n : nat) :
  forall (k : nat) (total : Z),
    (k + n <= length number)%nat ->
    exists z, ups_for number n (Z.of_nat k) (Some total) = Some z.
Proof.
  induction n as [|n IH]; intros k total Hk; cbn [ups_for]; [eauto|].
  destruct (nth_error number k) as [c|] eqn:E;
    [|apply nth_error_None in E; lia].
  destruct (ups_step_some number k c total E) as [z ->].
  replace (Z.of_nat k + 1) with (Z.of_nat (S k)) by lia.
  apply IH; lia.
Qed.

(** The running total is a number whatever the body holds. *)
Lemma ups_total_some (body : jsstring) : exists z, ups_total body = Some z.
Proof. unfold ups_total; apply (ups_for_some body (length body) 0%nat); lia. Qed.

Lemma rem10_bound (z : Z) : -10 < Z.rem z 10 < 10.
Proof. pose proof (Z.rem_bound_abs z 10); lia. Qed.

Lemma ups_verdict_nonpos (d : Z) (check : jsstring) :
  d <= 0 -> ups_verdict (Some d) check = true.
Proof.
  intros H; unfold ups_verdict; cbn [num_gtb].
  destruct (Z.gtb_spec d 0); [lia|]; rewrite andb_false_r; reflexivity.
Qed.

Lemma ups_verdict_pos (d c : Z) :
  0 < d < 10 ->
  ups_verdict (Some d) [c] = true <->
  digit_value c = Some d \/ digit_value c = Some (10 - d).
Proof.
  intros H; unfold ups_verdict, loose_eqb, digit_value; cbn [sub lift2 num_gtb].
  rewrite Number_char.
  destruct (Z.gtb_spec d 0); [|lia]; rewrite andb_true_r.
  destruct (is_digit c) eqn:Ed.
  - rewrite (digit_not_white_space c Ed); cbn [num_eqb].
    destruct (Z.eqb_spec d (c - 48)); cbn [negb].
    + split; [left; congruence | reflexivity].
    + rewrite Z.eqb_eq; split.
      * intros ->; right; reflexivity.
      * intros [E|E]; congruence.
  - destruct (is_white_space c); cbn [num_eqb NaN negb].
    + destruct (Z.eqb_spec d 0); [lia|]; cbn [negb].
      destruct (Z.eqb_spec (10 - d) 0); [lia|].
      split; [discriminate | intros [E|E]; discriminate].
    + split; [discriminate | intros [E|E]; discriminate].
Qed.

(** An 18-character string that starts with "1Z": prefix, body, check. *)
Lemma ups_shape (t : jsstring) :
  len t = 18 -> substr t 0 2 = lit "1Z" ->
  exists body check,
    t = 49 :: 90 :: body ++ [check] /\ length body = 15%nat.
Proof.
  unfold len; intros Hl Hp.
  do 18 (destruct t as [|? t]; [simpl in Hl; lia|]).
  destruct t; [|simpl in Hl; lia].
  injection Hp as -> ->.
  eexists [_; _; _; _; _; _; _; _; _; _; _; _; _; _; _], _.
  split; reflexivity.
Qed.

Lemma ups_shape_slices (body : jsstring) (check : Z) :
  length body = 15%nat ->
  let t := 49 :: 90 :: body ++ [check] in
  len t = 18 /\ substr t 0 2 = lit "1Z" /\ substr t 2 15 = body
  /\ substr t 17 1 = [check] /\ nth_error t 17 = Some check
  /\ firstn 17 t = 49 :: 90 :: body.
Proof.
  intros Hb.
  do 15 (destruct body as [|? body]; [discriminate|]).
  destruct body; [|discriminate].
  repeat split; reflexivity.
Qed.

(** The verdict on a well-shaped input, in terms of its body and check
    character. *)
Lemma validUPS_shape (body : jsstring) (check z : Z) :
  length body = 15%nat ->
  is_white_space check = false ->
  ups_total body = Some z ->
  value (_validUPS (49 :: 90 :: body ++ [check])) =
  ups_verdict (Some (Z.rem z 10)) [check].
Proof.
  intros Hb Hc Hz.
  destruct (ups_shape_slices body check Hb) as (Hl & Hp & Hbody & Hck & _).
  assert (Ht : trim (49 :: 90 :: body ++ [check]) = 49 :: 90 :: body ++ [check])
    by (apply (trim_id 49 check (90 :: body)); [reflexivity | assumption]).
  rewrite validUPS_unfold; rewrite Ht; try assumption.
  rewrite Hbody, Hck, Hz; reflexivity.
Qed.

(** The validator prints at most one line, the body, and only past its
    two tests. *)
Lemma validUPS_printed (s : jsstring) :
  printed (_validUPS s) =
  if ups_gate (trim s) then [substr (trim s) 2 15] else [].
Proof.
  unfold _validUPS, ups_gate.
  destruct (len (trim s) =? 18); cbn [negb andb]; [|reflexivity].
  destruct (str_eqb (substr (trim s) 0 2) (lit "1Z")); cbn [negb];
    [|reflexivity].
  cbv zeta; destruct (negb _ && _); reflexivity.
Qed.

End UPS.

(** ** FedEx Express: the weighted sum *)

Section FedexExpress.

Lemma express_weight_cases (i : Z) :
  express_weight i = 3 \/ express_weight i = 1 \/ express_weight i = 7.
Proof.
  unfold express_weight.
  pose proof (Z.mod_pos_bound i 3 ltac:(lia)) as B.
  assert (E : i mod 3 = 0 \/ i mod 3 = 1 \/ i mod 3 = 2) by lia.
  destruct E as [-> | [-> | ->]]; cbn; auto.
Qed.

Lemma array_get_values (i : Z) :
  0 <= i -> array_get values (Some (Z.rem i 3)) = Some (express_weight i).
Proof.
  intros Hi; rewrite Z.rem_mod_nonneg by lia.
  unfold array_get, express_weight.
  pose proof (Z.mod_pos_bound i 3 ltac:(lia)) as B.
  assert (E : i mod 3 = 0 \/ i mod 3 = 1 \/ i mod 3 = 2) by lia.
  destruct E as [-> | [-> | ->]]; reflexivity.
Qed.

Lemma express_sum_nonneg (cs : list Z) :
  forall i, forallb is_digit cs = true -> 0 <= express_sum i cs.
Proof.
  induction cs as [|c cs IH]; intros i H; cbn [express_sum]; [lia|].
  cbn [forallb] in H; apply andb_true_iff in H as [Hc Hcs].
  specialize (IH (i + 1) Hcs).
  unfold is_digit in Hc.
  destruct (express_weight_cases i) as [-> | [-> | ->]]; lia.
Qed.

Lemma nth_error_middle (pre rest : jsstring) (c : Z) :
  nth_error (pre ++ c :: rest) (length pre) = Some c.
Proof.
  rewrite nth_error_app2 by lia; rewrite Nat.sub_diag; reflexivity.
Qed.

Lemma charAt_middle (pre rest : jsstring) (c : Z) :
  charAt (pre ++ c :: rest) (len pre) = [c].
Proof. apply charAt_nth, nth_error_middle. Qed.

Lemma len_snoc (pre : jsstring) (c : Z) : len (pre ++ [c]) = len pre + 1.
Proof. unfold len; rewrite length_app; cbn [length]; lia. Qed.

(** The loop over [cs], wherever it sits in the string: it stops at the
    first character that is not a digit and otherwise adds the weighted
    sum of [cs] to the total. *)
Lemma fedexExpress_for_spec (cs : list Z) :
  forall (pre rest : jsstring) (total : Z),
    fedexExpress_for (pre ++ cs ++ rest) (length cs) (len pre) (Some total) =
    if forallb is_digit cs
    then Some (Some (total + express_sum (len pre) cs))
    else None.
Proof.
  induction cs as [|c cs IH]; intros pre rest total.
  - cbn; rewrite Z.add_0_r; reflexivity.
  - cbn [fedexExpress_for length forallb express_sum app].
    rewrite charAt_middle, indexOf_digits.
    destruct (is_digit c) eqn:Ec; cbn [negb andb]; [|reflexivity].
    rewrite (Number_digit c Ec), array_get_values by apply len_nonneg.
    cbn [add mul lift2].
    replace (pre ++ c :: cs ++ rest) with ((pre ++ [c]) ++ cs ++ rest)
      by (rewrite <- app_assoc; reflexivity).
    rewrite <- (len_snoc pre c), IH, Z.add_assoc; reflexivity.
Qed.

(** A string of [k + 1] characters is its first [k] and its last. *)
Lemma split_last (t : jsstring) (k : nat) :
  length t = S k ->
  exists c, nth_error t k = Some c /\ t = firstn k t ++ [c].
Proof.
  intros Hl.
  pose proof (firstn_skipn k t) as E.
  pose proof (length_skipn k t) as Ls.
  destruct (skipn k t) as [|c [|? ?]] eqn:Es; cbn [length] in Ls; try lia.
  exists c; split; [|symmetry; exact E].
  rewrite <- E at 1.
  replace k with (length (firstn k t)) at 2 by (rewrite length_firstn; lia).
  apply nth_error_middle.
Qed.

End FedexExpress.

(** ** FedEx Ground and USPS: the right-to-left sums *)

Section RightToLeft.

(** The width of the window: 15 for FedEx Ground, 22 for USPS. *)
Variable w : Z.

Lemma sum_where_snoc (p : Z -> bool) (cs : list Z) (c : Z) :
  forall i,
    sum_where p i (cs ++ [c]) =
    sum_where p i cs + (if p (i + len cs) then c - 48 else 0).
Proof.
  induction cs as [|a cs IH]; intros i; cbn [sum_where app].
  - replace (i + len []) with i by (unfold len; cbn [length]; lia).
    destruct (p i); lia.
  - rewrite IH.
    replace (i + 1 + len cs) with (i + len (a :: cs))
      by (unfold len; cbn [length]; lia).
    destruct (p i), (p (i + len (a :: cs))); lia.
Qed.

Lemma sum_where_nonneg (p : Z -> bool) (cs : list Z) :
  forall i, forallb is_digit cs = true -> 0 <= sum_where p i cs.
Proof.
  induction cs as [|c cs IH]; intros i H; cbn [sum_where]; [lia|].
  cbn [forallb] in H; apply andb_true_iff in H as [Hc Hcs].
  specialize (IH (i + 1) Hcs); unfold is_digit in Hc.
  destruct (p i); lia.
Qed.

Lemma firstn_snoc (l : jsstring) :
  forall (n : nat) (c : Z),
    nth_error l n = Some c -> firstn (S n) l = firstn n l ++ [c].
Proof.
  induction l as [|a l IH]; intros [|n] c H; try discriminate.
  - injection H as ->; reflexivity.
  - cbn [nth_error] in H; change (a :: firstn (S n) l = a :: firstn n l ++ [c]).
    rewrite (IH n c H); reflexivity.
Qed.

(** The loop from position [n - 1] down to 0: it stops at a character
    that is not a digit and otherwise adds the digits of the first [n]
    characters to the two totals by the parity of their place. *)
Lemma rtl_for_spec (number : jsstring) (n : nat) :
  forall (e o : Z),
    (n <= length number)%nat -> Z.of_nat n <= w ->
    rtl_for w number n (Z.of_nat n - 1) (Some e) (Some o) =
    if forallb is_digit (firstn n number)
    then Some (Some (e + even_sum w (firstn n number)),
               Some (o + odd_sum w (firstn n number)))
    else None.
Proof.
  induction n as [|n IH]; intros e o Hn Hw.
  - cbn; rewrite !Z.add_0_r; reflexivity.
  - destruct (nth_error number n) as [c|] eqn:E;
      [|apply nth_error_None in E; lia].
    cbn [rtl_for].
    replace (Z.of_nat (S n) - 1) with (Z.of_nat n) by lia.
    rewrite (charAt_nth _ _ _ E), indexOf_digits, (firstn_snoc _ _ _ E).
    rewrite forallb_app; cbn [forallb].
    destruct (is_digit c) eqn:Ec; cbn [negb];
      [|rewrite !andb_false_r; reflexivity].
    rewrite (Number_digit c Ec), !andb_true_r; cbn [add lift2].
    unfold even_sum, odd_sum; rewrite !sum_where_snoc, !Z.add_0_l.
    replace (len (firstn n number)) with (Z.of_nat n)
      by (unfold len; rewrite length_firstn; lia).
    unfold even_place; rewrite Z.rem_mod_nonneg by lia.
    destruct ((w - Z.of_nat n) mod 2 =? 0); cbn [negb];
      rewrite IH by lia;
      destruct (forallb is_digit (firstn n number)); try reflexivity;
      repeat match goal with
             | |- Some _ = Some _ => f_equal
             | |- (_, _) = (_, _) => f_equal
             end;
      unfold even_sum, odd_sum, even_place; lia.
Qed.

End RightToLeft.

Lemma fedexGround_for_rtl (number : jsstring) (n : nat) :
  forall i e o, fedexGround_for number n i e o = rtl_for 15 number n i e o.
Proof.
  induction n as [|n IH]; intros i e o; cbn [fedexGround_for rtl_for];
    [reflexivity|].
  rewrite !IH; reflexivity.
Qed.

Lemma usps_for_rtl (number : jsstring) (n : nat) :
  forall i e o, usps_for number n i e o = rtl_for 22 number n i e o.
Proof.
  induction n as [|n IH]; intros i e o; cbn [usps_for rtl_for];
    [reflexivity|].
  rewrite !IH; reflexivity.
Qed.

(** ** The length-and-prefix gates *)

Section Gates.

Lemma array_indexOf_from_spec (x : jsstring) (xs : list jsstring) :
  forall pos,
    0 <= pos ->
    (array_indexOf_from xs x pos = -1 /\ ~ In x xs)
    \/ (pos <= array_indexOf_from xs x pos /\ In x xs).
Proof.
  induction xs as [|y xs IH]; intros pos Hpos; cbn [array_indexOf_from].
  - left; split; [reflexivity | intros []].
  - destruct (str_eqb y x) eqn:E.
    + apply str_eqb_eq in E; right; split; [lia | left; exact E].
    + assert (y <> x) by (intros ->; rewrite (proj2 (str_eqb_eq x x)) in E;
                           [discriminate | reflexivity]).
      destruct (IH (pos + 1) ltac:(lia)) as [[-> Hn] | [Hle Hin]].
      * left; split; [reflexivity | intros [|]; contradiction].
      * right; split; [lia | right; exact Hin].
Qed.

(** The search finds a string exactly when it is in the array. *)
Lemma array_indexOf_found (xs : list jsstring) (x : jsstring) :
  (array_indexOf xs x =? -1) = false <-> In x xs.
Proof.
  unfold array_indexOf.
  destruct (array_indexOf_from_spec x xs 0 ltac:(lia)) as [[-> Hn] | [Hle Hin]].
  - split; [discriminate | contradiction].
  - destruct (Z.eqb_spec (array_indexOf_from xs x 0) (-1)); [lia | tauto].
Qed.

Lemma ups_gate_true (t : jsstring) :
  ups_gate t = true <-> len t = 18 /\ substr t 0 2 = lit "1Z".
Proof.
  unfold ups_gate; rewrite andb_true_iff, Z.eqb_eq, str_eqb_eq; tauto.
Qed.

Lemma fedexGround_gate_true (t : jsstring) :
  fedexGround_gate t = true <->
  15 <= len t /\ In (substr t 0 2) [lit "96"; lit "00"].
Proof.
  unfold fedexGround_gate.
  rewrite negb_true_iff, orb_false_iff, Z.ltb_ge, array_indexOf_found; tauto.
Qed.

Lemma usps_gate_true (t : jsstring) :
  usps_gate t = true <->
  22 <= len t
  /\ In (substr t 0 2) [lit "91"; lit "71"; lit "73"; lit "77"; lit "81"]
  /\ substr t 0 3 <> lit "420".
Proof.
  unfold usps_gate.
  rewrite negb_true_iff, !orb_false_iff, Z.ltb_ge, array_indexOf_found.
  rewrite <- not_true_iff_false, str_eqb_eq; tauto.
Qed.

(** A string that starts with an accepted USPS prefix does not start with
    "420". *)
Lemma usps_prefix_not_420 (t : jsstring) :
  In (substr t 0 2) [lit "91"; lit "71"; lit "73"; lit "77"; lit "81"] ->
  substr t 0 3 <> lit "420".
Proof.
  change (substr t 0 2) with (firstn 2 t).
  change (substr t 0 3) with (firstn 3 t).
  intros Hin E.
  assert (E2 : firstn 2 t = lit "42")
    by (change 2%nat with (Nat.min 2 3);
        rewrite <- firstn_firstn, E; reflexivity).
  rewrite E2 in Hin; cbn in Hin.
  repeat (destruct Hin as [Hin|Hin]; [discriminate|]); exact Hin.
Qed.

End Gates.

(** ** What each checksum validator accepts *)

Section Verdicts.

Lemma validFedexExpress_spec (s : jsstring) :
  _validFedexExpress s = true <->
  len (trim s) = 12
  /\ forallb is_digit (firstn 11 (trim s)) = true
  /\ exists c, nth_error (trim s) 11 = Some c
               /\ digit_value c = Some (express_check (firstn 11 (trim s))).
Proof.
  unfold _validFedexExpress.
  destruct (Z.eqb_spec (len (trim s)) 12) as [Hl|Hl]; cbn [negb];
    [|split; [discriminate | tauto]].
  destruct (split_last (trim s) 11) as (c & Hc & Ht);
    [unfold len in Hl; lia|].
  assert (Hws : is_white_space c = false) by (eapply trim_last; exact Ht).
  set (cs := firstn 11 (trim s)) in *.
  assert (Hcs : length cs = 11%nat)
    by (unfold cs; rewrite length_firstn; unfold len in Hl; lia).
  rewrite Ht at 1.
  pose proof (fedexExpress_for_spec cs [] [c] 0) as Hloop.
  rewrite Hcs in Hloop; cbn [app] in Hloop; change (len []) with 0 in Hloop.
  rewrite Hloop; clear Hloop.
  destruct (forallb is_digit cs) eqn:Hd;
    [|split; [discriminate | intros (_ & H & _); discriminate]].
  pose proof (express_sum_nonneg cs 0 Hd) as Hnn.
  rewrite Z.add_0_l.
  change 11 with (Z.of_nat 11) at 3; rewrite (index_nth _ _ _ Hc).
  assert (Hex : forall X,
             (exists c', nth_error (trim s) 11 = Some c'
                         /\ digit_value c' = Some X)
             <-> digit_value c = Some X).
  { intros X; split; [|intros H; exists c; auto].
    intros (c' & Hc' & H); rewrite Hc in Hc'; injection Hc' as <-; exact H. }
  rewrite Hex; clear Hex.
  unfold express_check, digit_value.
  cbn [rem Z.eqb]; rewrite Z.rem_mod_nonneg by lia.
  set (r := express_sum 0 cs mod 11).
  cbn [num_eqb loose_eqb]; rewrite Number_char, Hws.
  destruct (r =? 10), (is_digit c); cbn [num_eqb NaN];
    rewrite ?Z.eqb_eq;
    (split; [intros H | intros (_ & _ & H)]; repeat split;
     congruence || discriminate).
Qed.

Lemma validFedexGround_unfold (s : jsstring) :
  _validFedexGround s =
  fedexGround_gate (trim s)
  && rtl_verdict 15 (substr (trim s) (len (trim s) - 15) 15) 14.
Proof.
  unfold _validFedexGround, fedexGround_gate, rtl_verdict.
  destruct (_ || _); cbn [negb andb]; [reflexivity|].
  rewrite fedexGround_for_rtl; reflexivity.
Qed.

Lemma validUSPS_unfold (s : jsstring) :
  _validUSPS s =
  usps_gate (trim s)
  && rtl_verdict 22 (substr (trim s) (len (trim s) - 22) 22) 21.
Proof.
  unfold _validUSPS, usps_gate, rtl_verdict.
  destruct (_ || _ || _); cbn [negb andb]; [reflexivity|].
  rewrite usps_for_rtl; reflexivity.
Qed.

(** The rightmost [k] characters of a string that has at least [k]. *)
Lemma window_length (t : jsstring) (k : nat) :
  (k <= length t)%nat ->
  length (substr t (len t - Z.of_nat k) (Z.of_nat k)) = k.
Proof.
  intros H; unfold substr, len.
  destruct (Z.ltb_spec (Z.of_nat (length t) - Z.of_nat k) 0); [lia|].
  rewrite Nat2Z.id, length_firstn, length_skipn; lia.
Qed.

(** On a window whose first [n] characters are digits, the code accepts
    exactly when the last character is the digit [10 - total mod 10]; the
    difference is never reduced modulo 10. *)
Lemma rtl_verdict_spec (w : Z) (win : jsstring) (n : nat) :
  length win = S n -> Z.of_nat n <= w ->
  forallb is_digit (firstn n win) = true ->
  rtl_verdict w win n = true <->
  exists c, nth_error win n = Some c
            /\ digit_value c = Some (10 - rtl_total w (firstn n win) mod 10).
Proof.
  intros Hl Hw Hd; unfold rtl_verdict.
  rewrite rtl_for_spec, Hd by lia.
  destruct (split_last win n Hl) as (c & Hc & _).
  rewrite (index_nth _ _ _ Hc); cbn [add mul sub rem lift2 Z.eqb loose_eqb].
  pose proof (sum_where_nonneg (even_place w) (firstn n win) 0 Hd).
  pose proof (sum_where_nonneg (fun i => negb (even_place w i))
                               (firstn n win) 0 Hd).
  replace ((0 + even_sum w (firstn n win)) * 3 + (0 + odd_sum w (firstn n win)))
    with (rtl_total w (firstn n win)) by (unfold rtl_total; lia).
  assert (0 <= rtl_total w (firstn n win))
    by (unfold rtl_total, even_sum, odd_sum; lia).
  rewrite Z.rem_mod_nonneg by lia.
  pose proof (Z.mod_pos_bound (rtl_total w (firstn n win)) 10 ltac:(lia)).
  set (r := rtl_total w (firstn n win) mod 10) in *.
  rewrite Number_char; unfold digit_value.
  split.
  - intros Hv; exists c; split; [exact Hc|].
    destruct (is_white_space c); cbn [num_eqb] in Hv;
      [apply Z.eqb_eq in Hv; lia|].
    destruct (is_digit c); cbn [num_eqb NaN] in Hv; [|discriminate].
    apply Z.eqb_eq in Hv; congruence.
  - intros (c' & Hc' & Hv); rewrite Hc in Hc'; injection Hc' as <-.
    destruct (is_digit c) eqn:Ec; [|discriminate].
    rewrite (digit_not_white_space c Ec); cbn [num_eqb].
    apply Z.eqb_eq; congruence.
Qed.

(** A weighted total that is a multiple of 10 is never accepted, whatever
    the last character. *)
Lemma rtl_verdict_multiple_of_10 (w : Z) (win : jsstring) (n : nat) :
  length win = S n -> Z.of_nat n <= w ->
  forallb is_digit (firstn n win) = true ->
  rtl_total w (firstn n win) mod 10 = 0 ->
  rtl_verdict w win n = false.
Proof.
  intros Hl Hw Hd H0.
  apply not_true_iff_false; rewrite rtl_verdict_spec by assumption.
  intros (c & _ & H); rewrite H0 in H; unfold digit_value, is_digit in H.
  destruct (Z.leb_spec 48 c), (Z.leb_spec c 57); cbn [andb] in H;
    try discriminate.
  assert (c - 48 = 10 - 0) by congruence; lia.
Qed.

(** FedEx Ground, past its gate and on a window of digits: accepted
    exactly when the last character is the digit [10 - total mod 10]. *)
Lemma validFedexGround_spec (s : jsstring) :
  let win := substr (trim s) (len (trim s) - 15) 15 in
  fedexGround_gate (trim s) = true ->
  forallb is_digit (firstn 14 win) = true ->
  _validFedexGround s = true <->
  exists c, nth_error win 14 = Some c
            /\ digit_value c = Some (10 - rtl_total 15 (firstn 14 win) mod 10).
Proof.
  intros win Hg Hd; rewrite validFedexGround_unfold, Hg; cbn [andb].
  apply rtl_verdict_spec; [|lia|exact Hd].
  apply fedexGround_gate_true in Hg as [Hl _].
  apply (window_length (trim s) 15); unfold len in Hl; lia.
Qed.

(** USPS, likewise, on its window of 22 characters. *)
Lemma validUSPS_spec (s : jsstring) :
  let win := substr (trim s) (len (trim s) - 22) 22 in
  usps_gate (trim s) = true ->
  forallb is_digit (firstn 21 win) = true ->
  _validUSPS s = true <->
  exists c, nth_error win 21 = Some c
            /\ digit_value c = Some (10 - rtl_total 22 (firstn 21 win) mod 10).
Proof.
  intros win Hg Hd; rewrite validUSPS_unfold, Hg; cbn [andb].
  apply rtl_verdict_spec; [|lia|exact Hd].
  apply usps_gate_true in Hg as [Hl _].
  apply (window_length (trim s) 22); unfold len in Hl; lia.
Qed.

(** Hence neither accepts a window whose weighted total is a multiple
    of 10. *)
Lemma validFedexGround_multiple_of_10 (s : jsstring) :
  let win := substr (trim s) (len (trim s) - 15) 15 in
  forallb is_digit (firstn 14 win) = true ->
  rtl_total 15 (firstn 14 win) mod 10 = 0 ->
  _validFedexGround s = false.
Proof.
  intros win Hd H0; rewrite validFedexGround_unfold.
  destruct (fedexGround_gate (trim s)) eqn:Hg; cbn [andb]; [|reflexivity].
  apply rtl_verdict_multiple_of_10; try assumption; [|lia].
  apply fedexGround_gate_true in Hg as [Hl _].
  apply (window_length (trim s) 15); unfold len in Hl; lia.
Qed.

Lemma validUSPS_multiple_of_10 (s : jsstring) :
  let win := substr (trim s) (len (trim s) - 22) 22 in
  forallb is_digit (firstn 21 win) = true ->
  rtl_total 22 (firstn 21 win) mod 10 = 0 ->
  _validUSPS s = false.
Proof.
  intros win Hd H0; rewrite validUSPS_unfold.
  destruct (usps_gate (trim s)) eqn:Hg; cbn [andb]; [|reflexivity].
  apply rtl_verdict_multiple_of_10; try assumption; [|lia].
  apply usps_gate_true in Hg as [Hl _].
  apply (window_length (trim s) 22); unfold len in Hl; lia.
Qed.

(** Each validator accepts only past its gate. *)
Lemma validators_pass_gates (s : jsstring) :
  (value (_validUPS s) = true -> ups_gate (trim s) = true)
  /\ (_validFedexExpress s = true -> fedexExpress_gate (trim s) = true)
  /\ (_validFedexGround s = true -> fedexGround_gate (trim s) = true)
  /\ (_validUSPS s = true -> usps_gate (trim s) = true).
Proof.
  repeat split.
  - intros Hv; apply ups_gate_true.
    destruct (Z.eq_dec (len (trim s)) 18) as [Hl|Hl];
      [|rewrite validUPS_rejects in Hv by tauto; discriminate].
    destruct (list_eq_dec Z.eq_dec (substr (trim s) 0 2) (lit "1Z")) as [Hp|Hp];
      [tauto | rewrite validUPS_rejects in Hv by tauto; discriminate].
  - intros Hv; apply validFedexExpress_spec in Hv as (Hl & Hd & _).
    unfold fedexExpress_gate; rewrite Hl.
    change (substr (trim s) 0 11) with (firstn 11 (trim s)).
    rewrite Hd; reflexivity.
  - rewrite validFedexGround_unfold; intros Hv.
    apply andb_true_iff in Hv; tauto.
  - rewrite validUSPS_unfold; intros Hv.
    apply andb_true_iff in Hv; tauto.
Qed.

(** A negative remainder, which characters below "?" that are not digits
    can produce, is accepted like a remainder of 0. *)
Lemma validUPS_negative_remainder (s : jsstring) (d : Z) :
  len (trim s) = 18 -> substr (trim s) 0 2 = lit "1Z" ->
  rem (ups_total (substr (trim s) 2 15)) (Some 10) = Some d ->
  d < 0 -> value (_validUPS s) = true.
Proof.
  intros Hl Hp Hd Hneg; rewrite (validUPS_unfold s Hl Hp), Hd.
  apply ups_verdict_nonpos; lia.
Qed.

End Verdicts.

(** ** UPS: the running total in closed form *)

Section UPSTotal.

Lemma ups_step_value (number : jsstring) (k : nat) (c total : Z) :
  nth_error number k = Some c ->
  ups_step number (Z.of_nat k) (Some total) =
  Some (total + ups_contribution (Z.of_nat k + 1) c).
Proof.
  intros H; unfold ups_step, ups_contribution, ups_fold.
  rewrite (charAt_nth _ _ _ H), (charCodeAt_nth _ _ _ H).
  change ValidChars with validnumbers; rewrite indexOf_digits, negb_involutive.
  destruct (is_digit c) eqn:E; [rewrite (Number_digit c E)|];
    destruct (Z.rem (Z.of_nat k + 1) 2 =? 0); reflexivity.
Qed.

(** The loop over [cs], wherever it sits in the string, adds the
    contributions of its characters. *)
Lemma ups_for_value (cs : list Z) :
  forall (pre rest : jsstring) (total : Z),
    ups_for (pre ++ cs ++ rest) (length cs) (len pre) (Some total) =
    Some (total + ups_sum (len pre + 1) cs).
Proof.
  induction cs as [|c cs IH]; intros pre rest total;
    cbn [ups_for length ups_sum app].
  - rewrite Z.add_0_r; reflexivity.
  - unfold len at 1 2.
    rewrite (ups_step_value _ _ c total (nth_error_middle pre (cs ++ rest) c)).
    fold (len pre).
    replace (pre ++ c :: cs ++ rest) with ((pre ++ [c]) ++ cs ++ rest)
      by (rewrite <- app_assoc; reflexivity).
    rewrite <- (len_snoc pre c), IH, (len_snoc pre c), Z.add_assoc.
    reflexivity.
Qed.

Lemma ups_total_value (body : jsstring) :
  ups_total body = Some (ups_sum 1 body).
Proof.
  unfold ups_total.
  pose proof (ups_for_value body [] [] 0) as H.
  rewrite app_nil_r in H; exact H.
Qed.

Lemma ups_fold_letter (c : Z) : is_letter c = true -> 0 <= ups_fold c <= 9.
Proof.
  unfold is_letter, ups_fold; intros H.
  pose proof (Z.rem_bound_pos (c - 63) 10); lia.
Qed.

Lemma ups_contribution_nonneg (pos c : Z) :
  is_digit c || is_letter c = true -> 0 <= ups_contribution pos c.
Proof.
  unfold ups_contribution; intros H.
  destruct (is_digit c) eqn:Ed.
  - unfold is_digit in Ed; destruct (Z.rem pos 2 =? 0); lia.
  - cbn [orb] in H; pose proof (ups_fold_letter c H) as B.
    destruct (Z.rem pos 2 =? 0); [lia|].
    assert (ups_fold c / 5 < 2) by (apply Z.div_lt_upper_bound; lia).
    assert (ups_fold c / 5 = 0 \/ 5 <= ups_fold c)
      by (destruct (Z_lt_ge_dec (ups_fold c) 5);
          [left; apply Z.div_small; lia | right; lia]).
    lia.
Qed.

Lemma ups_sum_nonneg (cs : list Z) :
  forall pos,
    forallb (fun c => is_digit c || is_letter c) cs = true ->
    0 <= ups_sum pos cs.
Proof.
  induction cs as [|c cs IH]; intros pos H; cbn [ups_sum]; [lia|].
  cbn [forallb] in H; apply andb_true_iff in H as [Hc Hcs].
  pose proof (ups_contribution_nonneg pos c Hc).
  specialize (IH (pos + 1) Hcs); lia.
Qed.

End UPSTotal.

(** ** The embedding on concrete inputs *)

Example trim_strips_both_ends :
  trim (lit "  1Z999  ") = lit "1Z999"
  /\ trim ([9; 10; 160; 8195] ++ lit "a b" ++ [12288; 65279]) = lit "a b".
Proof. split; reflexivity. Qed.

Example validUPS_prints_body :
  _validUPS (lit " 1Z999AA10123456784 ") = ([lit "999AA1012345678"], true).
Proof. reflexivity. Qed.

Example validUPS_wrong_check :
  value (_validUPS (lit "1Z999AA10123456785")) = false.
Proof. reflexivity. Qed.

Example validUPS_dashes :
  ups_total (lit "0-0-0-0-0-0-0-0") = Some (-56)
  /\ value (_validUPS (lit "1Z0-0-0-0-0-0-0-0X")) = true.
Proof. split; reflexivity. Qed.

Example validFedexExpress_sample :
  express_sum 0 (lit "12345678901") = 178
  /\ _validFedexExpress (lit "123456789012") = true
  /\ _validFedexExpress (lit "123456789013") = false.
Proof. repeat split; reflexivity. Qed.

Example validFedexGround_sample :
  rtl_total 15 (lit "96300000000001") = 33
  /\ _validFedexGround (lit "963000000000017") = true
  /\ _validFedexGround (lit "1234963000000000017") = false
  /\ _validFedexGround (lit "9612345963000000000017") = true.
Proof. repeat split; reflexivity. Qed.

Example validUSPS_sample :
  _validUSPS (lit "9102000000000000000017") = true
  /\ value (IsTrackingNumber (lit "9102000000000000000017"))
     = Some (lit "usps").
Proof. split; reflexivity. Qed.

(** ** The claims *)

(** C1. FedEx Ground and USPS compare [10 - total mod 10] with the last
    character without reducing it modulo 10: on these two inputs the gates
    pass, the first 14 (21) characters of the window are digits, the
    weighted total is 30, the last character is the digit
    [(10 - 30 mod 10) mod 10 = 0], and yet both validators answer false. *)
Theorem check_digit_of_multiple_of_10_rejected :
  (fedexGround_gate (trim ground_sample) = true
   /\ forallb is_digit (firstn 14 ground_sample) = true
   /\ rtl_total 15 (firstn 14 ground_sample) = 30
   /\ option_map digit_value (nth_error ground_sample 14)
      = Some (Some ((10 - 30 mod 10) mod 10))
   /\ _validFedexGround ground_sample = false)
  /\ (usps_gate (trim usps_sample) = true
      /\ forallb is_digit (firstn 21 usps_sample) = true
      /\ rtl_total 22 (firstn 21 usps_sample) = 30
      /\ option_map digit_value (nth_error usps_sample 21)
         = Some (Some ((10 - 30 mod 10) mod 10))
      /\ _validUSPS usps_sample = false).
Proof. vm_compute; repeat split. Qed.

(** C2, as stated, fails: this input has an underscore in its body, which
    is neither a digit nor a letter, and the UPS validator accepts it. *)
Lemma validUPS_accepts_underscore :
  ~ (len (trim ups_underscore_sample) <> 18
     \/ substr (trim ups_underscore_sample) 0 2 <> lit "1Z"
     \/ Exists (fun c => is_digit c = false /\ is_letter c = false)
               (substr (trim ups_underscore_sample) 2 15)
     -> value (_validUPS ups_underscore_sample) = false).
Proof.
  intros H.
  assert (E : value (_validUPS ups_underscore_sample) = true) by reflexivity.
  rewrite H in E; [discriminate|].
  right; right.
  apply Exists_exists; exists 95; split; [|split; reflexivity].
  vm_compute; tauto.
Qed.

(** C2, amended. The UPS validator answers false whenever the trimmed
    input is not 18 characters long or does not start with "1Z", so it
    accepts only when both hold.  It does not test the 15 characters of
    the body: the loop gives every character that is not a decimal digit,
    letter or not, the folded code [(char code - 63) % 10] (at an odd
    position, twice that code less 9 when it is 5 or more), and the
    running total is the sum of these contributions.  Past the two tests
    the answer depends on the remainder [d] of the total by 10 only: any
    last character when [d <= 0], else the digit [d] or the digit
    [10 - d]; so after any 17 characters that pass the two tests some
    check character is accepted. *)
Theorem validUPS_gate (s : jsstring) :
  (len (trim s) <> 18 \/ substr (trim s) 0 2 <> lit "1Z" ->
   value (_validUPS s) = false)
  /\ (value (_validUPS s) = true ->
      len (trim s) = 18 /\ substr (trim s) 0 2 = lit "1Z")
  /\ (forall (k : nat) (c total : Z),
        nth_error (substr (trim s) 2 15) k = Some c ->
        is_digit c = false ->
        ups_step (substr (trim s) 2 15) (Z.of_nat k) (Some total) =
        Some (total
              + (if Z.rem (Z.of_nat k + 1) 2 =? 0
                 then Z.rem (c - 63) 10
                 else 2 * Z.rem (c - 63) 10 - 9 * (Z.rem (c - 63) 10 / 5))))
  /\ ups_total (substr (trim s) 2 15)
     = Some (ups_sum 1 (substr (trim s) 2 15))
  /\ (len (trim s) = 18 -> substr (trim s) 0 2 = lit "1Z" ->
      (value (_validUPS s) = true <->
       exists check,
         nth_error (trim s) 17 = Some check
         /\ (Z.rem (ups_sum 1 (substr (trim s) 2 15)) 10 <= 0
             \/ digit_value check
                = Some (Z.rem (ups_sum 1 (substr (trim s) 2 15)) 10)
             \/ digit_value check
                = Some (10 - Z.rem (ups_sum 1 (substr (trim s) 2 15)) 10)))
      /\ exists check,
          value (_validUPS (firstn 17 (trim s) ++ [check])) = true).
Proof.
  split; [apply validUPS_rejects | split; [|split; [|split]]].
  - intros Hv.
    destruct (Z.eq_dec (len (trim s)) 18) as [Hl|Hl];
      [|rewrite validUPS_rejects in Hv by tauto; discriminate].
    destruct (list_eq_dec Z.eq_dec (substr (trim s) 0 2) (lit "1Z")) as [Hp|Hp];
      [tauto | rewrite validUPS_rejects in Hv by tauto; discriminate].
  - intros k c total Hk Hc.
    rewrite (ups_step_value _ k c total Hk).
    unfold ups_contribution, ups_fold; rewrite Hc; reflexivity.
  - apply ups_total_value.
  - intros Hl Hp.
    rewrite (validUPS_unfold s Hl Hp).
    destruct (ups_shape _ Hl Hp) as (body & check & E & Hb).
    rewrite E in *; clear E.
    destruct (ups_shape_slices body check Hb)
      as (_ & _ & -> & -> & -> & ->).
    rewrite ups_total_value.
    change (rem (Some (ups_sum 1 body)) (Some 10))
      with (Some (Z.rem (ups_sum 1 body) 10)).
    pose proof (rem10_bound (ups_sum 1 body)) as B.
    pose proof (ups_total_value body) as Hz.
    destruct (Z_le_gt_dec (Z.rem (ups_sum 1 body) 10) 0) as [Hd|Hd].
    + split.
      * rewrite ups_verdict_nonpos by exact Hd.
        split; [intros _; exists check; auto | reflexivity].
      * exists 48; cbn [app].
        rewrite (validUPS_shape body 48 _ Hb eq_refl Hz).
        apply ups_verdict_nonpos; exact Hd.
    + split.
      * rewrite ups_verdict_pos by lia.
        split; [intros H; exists check; tauto|].
        intros (c' & Hc' & H); injection Hc' as <-.
        destruct H as [H|H]; [lia | exact H].
      * exists (48 + Z.rem (ups_sum 1 body) 10).
        assert (Hdig : is_digit (48 + Z.rem (ups_sum 1 body) 10) = true)
          by (unfold is_digit; lia).
        cbn [app];
          rewrite (validUPS_shape body _ _ Hb
                     (digit_not_white_space _ Hdig) Hz).
        apply ups_verdict_pos; [lia|].
        left; unfold digit_value; rewrite Hdig; f_equal; lia.
Qed.

Lemma validUPS_gate_witness :
  value (_validUPS (lit "1Z999")) = false
  /\ ups_step (substr (trim ups_underscore_sample) 2 15) (Z.of_nat 3)
              (Some 36)
     = Some (36 + 2)
  /\ (value (_validUPS ups_underscore_sample) = true <->
      exists check,
        nth_error (trim ups_underscore_sample) 17 = Some check
        /\ (Z.rem (ups_sum 1 (substr (trim ups_underscore_sample) 2 15)) 10
            <= 0
            \/ digit_value check
               = Some (Z.rem
                         (ups_sum 1 (substr (trim ups_underscore_sample) 2 15))
                         10)
            \/ digit_value check
               = Some (10 - Z.rem
                              (ups_sum 1
                                 (substr (trim ups_underscore_sample) 2 15))
                              10)))
  /\ exists check,
      value (_validUPS (firstn 17 (trim ups_underscore_sample) ++ [check]))
      = true.
Proof.
  split; [|split; [|split]].
  - apply (proj1 (validUPS_gate (lit "1Z999"))).
    left; vm_compute; discriminate.
  - apply (proj1 (proj2 (proj2 (validUPS_gate ups_underscore_sample)))
             3%nat 95 36); reflexivity.
  - apply (proj2 (proj2 (proj2 (proj2
             (validUPS_gate ups_underscore_sample)))));
      reflexivity.
  - apply (proj2 (proj2 (proj2 (proj2
             (validUPS_gate ups_underscore_sample)))));
      reflexivity.
Defined.

(** C3, as stated, fails: the dispatcher does not reject this input. *)
Lemma ups_sample_not_rejected :
  value (IsTrackingNumber ups_sample) <> None.
Proof. vm_compute; discriminate. Qed.

(** C3, amended. The input has 18 characters, not 19; it starts with "1Z",
    the running total of its body is 96, and its check character 4 is
    [10 - 6]: the dispatcher classifies it as UPS. *)
Theorem ups_sample_classified :
  len (trim ups_sample) = 18
  /\ ups_total (substr (trim ups_sample) 2 15) = Some 96
  /\ value (_validUPS ups_sample) = true
  /\ value (IsTrackingNumber ups_sample) = Some (lit "ups").
Proof. vm_compute; repeat split. Qed.

(** C4. FedEx Express: the validator accepts exactly the strings whose
    trimmed form has 12 characters, the first 11 of them decimal digits,
    and whose 12th character is the digit of the weighted sum of the first
    11 (weights 3, 1, 7 in turn) modulo 11, a remainder of 10 counting
    as 0. *)
Theorem fedexExpress_accepts_iff (s : jsstring) :
  _validFedexExpress s = true <->
  len (trim s) = 12
  /\ forallb is_digit (firstn 11 (trim s)) = true
  /\ exists c, nth_error (trim s) 11 = Some c
               /\ digit_value c = Some (express_check (firstn 11 (trim s))).
Proof. exact (validFedexExpress_spec s). Qed.

Lemma IsTrackingNumber_value (s : jsstring) :
  value (IsTrackingNumber s) =
  if value (_validUPS s) then Some (lit "ups")
  else if _validFedexExpress s then Some (lit "fedex")
  else if _validFedexGround s then Some (lit "fedex")
  else if _validUSPS s then Some (lit "usps")
  else None.
Proof.
  unfold IsTrackingNumber, bind, value.
  destruct (_validUPS s) as [out ups]; cbn [snd].
  destruct ups, (_validFedexExpress s), (_validFedexGround s), (_validUSPS s);
    reflexivity.
Qed.

Lemma GetTrackingURL_value (s : jsstring) :
  value (GetTrackingURL s) =
  let track := value (IsTrackingNumber s) in
  if str_loose_eqb track (lit "ups") then
    Some (lit "http://wwwapps.ups.com/tracking/tracking.cgi?tracknum=" ++ s)
  else if str_loose_eqb track (lit "fedex") then
    Some (lit "http://www.fedex.com/Tracking?tracknumbers=" ++ s)
  else if str_loose_eqb track (lit "usps") then
    Some (lit "http://trkcnfrm1.smi.usps.com/PTSInternetWeb/InterLabelInquiry.do?strOrigTrackNum="
          ++ s)
  else None.
Proof.
  unfold GetTrackingURL, bind, value.
  destruct (IsTrackingNumber s) as [out track]; cbn [snd].
  destruct (str_loose_eqb track (lit "ups")),
    (str_loose_eqb track (lit "fedex")), (str_loose_eqb track (lit "usps"));
    reflexivity.
Qed.

(** C5. The dispatcher asks UPS, then FedEx Express, then FedEx Ground,
    then USPS, and answers with the tag of the first validator that
    accepts; it answers [undefined] exactly when none of them accepts. *)
Theorem IsTrackingNumber_first_match (s : jsstring) :
  value (IsTrackingNumber s) =
  (if value (_validUPS s) then Some (lit "ups")
   else if _validFedexExpress s then Some (lit "fedex")
   else if _validFedexGround s then Some (lit "fedex")
   else if _validUSPS s then Some (lit "usps")
   else None)
  /\ (value (IsTrackingNumber s) = None <->
      value (_validUPS s) = false /\ _validFedexExpress s = false
      /\ _validFedexGround s = false /\ _validUSPS s = false).
Proof.
  split; [apply IsTrackingNumber_value|].
  rewrite IsTrackingNumber_value.
  destruct (value (_validUPS s)), (_validFedexExpress s),
    (_validFedexGround s), (_validUSPS s);
    split; try discriminate; try tauto;
    intros (? & ? & ? & ?); discriminate.
Qed.

(** C6. The URL builder answers [undefined] exactly when the dispatcher
    does; otherwise it answers the URL of the carrier found followed by
    the input as it was given, neither trimmed nor escaped. *)
Theorem GetTrackingURL_template (s : jsstring) :
  (value (GetTrackingURL s) = None <-> value (IsTrackingNumber s) = None)
  /\ (value (IsTrackingNumber s) = Some (lit "ups") ->
      value (GetTrackingURL s) =
      Some (lit "http://wwwapps.ups.com/tracking/tracking.cgi?tracknum="
            ++ s))
  /\ (value (IsTrackingNumber s) = Some (lit "fedex") ->
      value (GetTrackingURL s) =
      Some (lit "http://www.fedex.com/Tracking?tracknumbers=" ++ s))
  /\ (value (IsTrackingNumber s) = Some (lit "usps") ->
      value (GetTrackingURL s) =
      Some (lit "http://trkcnfrm1.smi.usps.com/PTSInternetWeb/InterLabelInquiry.do?strOrigTrackNum="
            ++ s))
  /\ (value (IsTrackingNumber s) = None
      \/ value (IsTrackingNumber s) = Some (lit "ups")
      \/ value (IsTrackingNumber s) = Some (lit "fedex")
      \/ value (IsTrackingNumber s) = Some (lit "usps")).
Proof.
  rewrite GetTrackingURL_value, IsTrackingNumber_value; cbv zeta.
  destruct (value (_validUPS s)), (_validFedexExpress s),
    (_validFedexGround s), (_validUSPS s).
  all: change (str_loose_eqb (Some (lit "ups")) (lit "ups")) with true;
    change (str_loose_eqb (Some (lit "fedex")) (lit "ups")) with false;
    change (str_loose_eqb (Some (lit "fedex")) (lit "fedex")) with true;
    change (str_loose_eqb (Some (lit "usps")) (lit "ups")) with false;
    change (str_loose_eqb (Some (lit "usps")) (lit "fedex")) with false;
    change (str_loose_eqb (Some (lit "usps")) (lit "usps")) with true;
    cbn [str_loose_eqb]; cbv iota.
  all: repeat split; try discriminate; try (intros _; reflexivity); auto.
Qed.

Lemma GetTrackingURL_template_witness :
  value (GetTrackingURL (lit "  1Z999AA10123456784 ")) =
  Some (lit "http://wwwapps.ups.com/tracking/tracking.cgi?tracknum=  1Z999AA10123456784 ").
Proof.
  apply (proj1 (proj2 (GetTrackingURL_template
                         (lit "  1Z999AA10123456784 ")))).
  reflexivity.
Defined.

(** C7. An input whose trimmed form has fewer than 12 characters is
    rejected by each validator at its length test (the UPS validator
    returns before it prints or sums anything), and the dispatcher answers
    [undefined]. *)
Theorem short_input_rejected (s : jsstring) :
  len (trim s) < 12 ->
  _validUPS s = ret false
  /\ _validFedexExpress s = false
  /\ _validFedexGround s = false
  /\ _validUSPS s = false
  /\ value (IsTrackingNumber s) = None.
Proof.
  intros H.
  assert (Hups : _validUPS s = ret false).
  { unfold _validUPS.
    destruct (Z.eqb_spec (len (trim s)) 18); [lia | reflexivity]. }
  assert (Hex : _validFedexExpress s = false).
  { unfold _validFedexExpress.
    destruct (Z.eqb_spec (len (trim s)) 12); [lia | reflexivity]. }
  assert (Hgr : _validFedexGround s = false).
  { unfold _validFedexGround.
    destruct (Z.ltb_spec (len (trim s)) 15); [reflexivity | lia]. }
  assert (Hus : _validUSPS s = false).
  { unfold _validUSPS.
    destruct (Z.ltb_spec (len (trim s)) 22); [reflexivity | lia]. }
  repeat split; try assumption.
  rewrite IsTrackingNumber_value, Hups, Hex, Hgr, Hus; reflexivity.
Qed.

Lemma short_input_rejected_witness :
  _validUPS (lit " 1Z999AA101 ") = ret false
  /\ _validFedexExpress (lit " 1Z999AA101 ") = false
  /\ _validFedexGround (lit " 1Z999AA101 ") = false
  /\ _validUSPS (lit " 1Z999AA101 ") = false
  /\ value (IsTrackingNumber (lit " 1Z999AA101 ")) = None.
Proof. apply (short_input_rejected (lit " 1Z999AA101 ")); reflexivity. Defined.

(** C8. At most one of the four length-and-prefix gates holds of a
    string. *)
Theorem gates_exclusive (t : jsstring) :
  (Nat.b2n (ups_gate t) + Nat.b2n (fedexExpress_gate t)
   + Nat.b2n (fedexGround_gate t) + Nat.b2n (usps_gate t) <= 1)%nat.
Proof.
  destruct (ups_gate t) eqn:Hu;
    [apply ups_gate_true in Hu as [Lu Pu] | clear Hu];
  (destruct (fedexExpress_gate t) eqn:He;
    [unfold fedexExpress_gate in He;
     apply andb_true_iff in He as [Le _]; apply Z.eqb_eq in Le | clear He]);
  (destruct (fedexGround_gate t) eqn:Hg;
    [apply fedexGround_gate_true in Hg as [Lg Pg] | clear Hg]);
  (destruct (usps_gate t) eqn:Hs;
    [apply usps_gate_true in Hs as (Ls & Ps & _) | clear Hs]);
  cbn [Nat.b2n Nat.add]; try lia; exfalso; try lia.
  all: repeat match goal with
         | P : substr _ 0 2 = _ |- _ => rewrite P in *; clear P
         | P : In _ (_ :: _) |- _ => destruct P as [P|P]
         | P : In _ [] |- _ => destruct P
         | P : lit _ = lit _ |- _ => discriminate P
         | P : lit _ = substr _ _ _ |- _ => symmetry in P
         end.
Qed.

Lemma digit_of_code (d : Z) :
  0 <= d <= 9 -> is_digit (48 + d) = true /\ digit_value (48 + d) = Some d.
Proof.
  intros H; assert (E : is_digit (48 + d) = true) by (unfold is_digit; lia).
  split; [exact E|]; unfold digit_value; rewrite E; f_equal; lia.
Qed.

(** C9. For a trimmed 18-character string that starts with "1Z", with [d]
    the remainder by 10 of the running total of its body: if [d = 0] the
    validator accepts whatever the last character; if [d > 0] it accepts
    exactly when the last character is the digit [d] or the digit
    [10 - d]; and when [d] is neither 0 nor 5, two different check
    characters are accepted after the same 17 characters. *)
Theorem validUPS_check_character (s : jsstring) :
  len (trim s) = 18 -> substr (trim s) 0 2 = lit "1Z" ->
  exists d check,
    rem (ups_total (substr (trim s) 2 15)) (Some 10) = Some d
    /\ nth_error (trim s) 17 = Some check
    /\ (d = 0 -> value (_validUPS s) = true)
    /\ (0 < d ->
        (value (_validUPS s) = true <->
         digit_value check = Some d \/ digit_value check = Some (10 - d)))
    /\ (d <> 0 -> d <> 5 ->
        exists c1 c2,
          c1 <> c2
          /\ value (_validUPS (firstn 17 (trim s) ++ [c1])) = true
          /\ value (_validUPS (firstn 17 (trim s) ++ [c2])) = true).
Proof.
  intros Hl Hp.
  rewrite (validUPS_unfold s Hl Hp).
  destruct (ups_shape _ Hl Hp) as (body & check & -> & Hb).
  destruct (ups_shape_slices body check Hb)
    as (_ & _ & -> & -> & -> & ->).
  destruct (ups_total_some body) as [z Hz].
  pose proof (rem10_bound z) as B.
  exists (Z.rem z 10), check; rewrite Hz.
  split; [reflexivity | split; [reflexivity|]].
  change (rem (Some z) (Some 10)) with (Some (Z.rem z 10)).
  split; [|split].
  - intros E; apply ups_verdict_nonpos; lia.
  - intros Hd; apply ups_verdict_pos; lia.
  - intros H0 H5; cbn [app].
    destruct (Z_le_gt_dec (Z.rem z 10) 0) as [Hd|Hd].
    + exists 48, 49; split; [lia|].
      rewrite !(fun c H => validUPS_shape body c z Hb H Hz) by reflexivity.
      split; apply ups_verdict_nonpos; exact Hd.
    + destruct (digit_of_code (Z.rem z 10) ltac:(lia)) as [D1 V1].
      destruct (digit_of_code (10 - Z.rem z 10) ltac:(lia)) as [D2 V2].
      exists (48 + Z.rem z 10), (48 + (10 - Z.rem z 10)).
      split; [lia|].
      rewrite !(fun c H => validUPS_shape body c z Hb H Hz)
        by (apply digit_not_white_space; assumption).
      split; apply ups_verdict_pos; try lia; [left | right]; assumption.
Qed.

Lemma validUPS_check_character_witness :
  exists d check,
    rem (ups_total (substr (trim ups_sample) 2 15)) (Some 10) = Some d
    /\ nth_error (trim ups_sample) 17 = Some check
    /\ (d = 0 -> value (_validUPS ups_sample) = true)
    /\ (0 < d ->
        (value (_validUPS ups_sample) = true <->
         digit_value check = Some d \/ digit_value check = Some (10 - d)))
    /\ (d <> 0 -> d <> 5 ->
        exists c1 c2,
          c1 <> c2
          /\ value (_validUPS (firstn 17 (trim ups_sample) ++ [c1])) = true
          /\ value (_validUPS (firstn 17 (trim ups_sample) ++ [c2])) = true).
Proof. apply (validUPS_check_character ups_sample); reflexivity. Defined.

(** C10. The "420" clause of the USPS validator never decides: a trimmed
    input that starts with "420" already fails the two-character prefix
    test, and the validator without the clause answers as the original on
    every input. *)
Theorem usps_420_clause_redundant (s : jsstring) :
  (str_eqb (substr (trim s) 0 3) (lit "420") = true ->
   array_indexOf [lit "91"; lit "71"; lit "73"; lit "77"; lit "81"]
                 (substr (trim s) 0 2) = -1)
  /\ _validUSPS_without_420 s = _validUSPS s.
Proof.
  split.
  - intros H; apply str_eqb_eq in H.
    apply Z.eqb_eq.
    destruct (array_indexOf _ (substr (trim s) 0 2) =? -1) eqn:E;
      [reflexivity|].
    apply array_indexOf_found, usps_prefix_not_420 in E; contradiction.
  - unfold _validUSPS_without_420, _validUSPS.
    destruct (len (trim s) <? 22); cbn [orb]; [reflexivity|].
    destruct (array_indexOf _ (substr (trim s) 0 2) =? -1) eqn:E;
      cbn [orb]; [reflexivity|].
    apply array_indexOf_found, usps_prefix_not_420 in E.
    destruct (str_eqb (substr (trim s) 0 3) (lit "420")) eqn:E3;
      [apply str_eqb_eq in E3; contradiction | reflexivity].
Qed.

Lemma usps_420_clause_redundant_witness :
  array_indexOf [lit "91"; lit "71"; lit "73"; lit "77"; lit "81"]
                (substr (trim (lit "4209102000000000000000017")) 0 2) = -1.
Proof.
  apply (proj1 (usps_420_clause_redundant (lit "4209102000000000000000017")));
    reflexivity.
Defined.

(** ** Further properties of the validators *)

(** *** White space around the input *)

Section Padding.

Lemma trimStart_app (s x : jsstring) :
  trimStart (s ++ x) =
  if forallb is_white_space s then trimStart x else trimStart s ++ x.
Proof.
  induction s as [|a s IH]; cbn [app forallb trimStart]; [reflexivity|].
  destruct (is_white_space a); cbn [andb]; [exact IH | reflexivity].
Qed.

Lemma trimStart_all_white_space (s : jsstring) :
  forallb is_white_space s = true -> trimStart s = [].
Proof.
  intros H; rewrite <- (app_nil_r s), trimStart_app, H; reflexivity.
Qed.

Lemma forallb_rev (p : Z -> bool) (s : jsstring) :
  forallb p (rev s) = forallb p s.
Proof.
  induction s as [|a s IH]; cbn [rev forallb]; [reflexivity|].
  rewrite forallb_app, IH; cbn [forallb]; rewrite andb_true_r, andb_comm.
  reflexivity.
Qed.

Lemma trimEnd_app_white_space (s pad : jsstring) :
  forallb is_white_space pad = true -> trimEnd (s ++ pad) = trimEnd s.
Proof.
  intros H; unfold trimEnd.
  rewrite rev_app_distr, trimStart_app, forallb_rev, H; reflexivity.
Qed.

(** Trimming forgets white space put before and after a string. *)
Lemma trim_padding (pad pad' s : jsstring) :
  forallb is_white_space pad = true ->
  forallb is_white_space pad' = true ->
  trim (pad ++ s ++ pad') = trim s.
Proof.
  intros Hp Hp'; unfold trim.
  rewrite trimStart_app, Hp, trimStart_app.
  destruct (forallb is_white_space s) eqn:Hs.
  - rewrite (trimStart_all_white_space pad' Hp'),
      (trimStart_all_white_space s Hs); reflexivity.
  - apply trimEnd_app_white_space; exact Hp'.
Qed.

(** The validators read their input through [trim] only. *)
Lemma validators_of_trim (s s' : jsstring) :
  trim s = trim s' ->
  _validUPS s = _validUPS s'
  /\ _validFedexExpress s = _validFedexExpress s'
  /\ _validFedexGround s = _validFedexGround s'
  /\ _validUSPS s = _validUSPS s'
  /\ IsTrackingNumber s = IsTrackingNumber s'.
Proof.
  intros H.
  assert (Hu : _validUPS s = _validUPS s')
    by (unfold _validUPS; rewrite H; reflexivity).
  assert (He : _validFedexExpress s = _validFedexExpress s')
    by (unfold _validFedexExpress; rewrite H; reflexivity).
  assert (Hg : _validFedexGround s = _validFedexGround s')
    by (unfold _validFedexGround; rewrite H; reflexivity).
  assert (Hs : _validUSPS s = _validUSPS s')
    by (unfold _validUSPS; rewrite H; reflexivity).
  repeat split; try assumption.
  unfold IsTrackingNumber; rewrite Hu, He, Hg, Hs; reflexivity.
Qed.

End Padding.

(** X1. White space before and after the input changes neither the answer
    of any validator nor that of the dispatcher, nor what is printed. *)
Theorem padding_ignored (pad pad' s : jsstring) :
  forallb is_white_space pad = true ->
  forallb is_white_space pad' = true ->
  _validUPS (pad ++ s ++ pad') = _validUPS s
  /\ _validFedexExpress (pad ++ s ++ pad') = _validFedexExpress s
  /\ _validFedexGround (pad ++ s ++ pad') = _validFedexGround s
  /\ _validUSPS (pad ++ s ++ pad') = _validUSPS s
  /\ IsTrackingNumber (pad ++ s ++ pad') = IsTrackingNumber s.
Proof.
  intros Hp Hp'; apply validators_of_trim, trim_padding; assumption.
Qed.

Lemma padding_ignored_witness :
  _validUPS ([9; 32; 160] ++ ups_sample ++ [13; 10; 8232]) = _validUPS ups_sample
  /\ _validFedexExpress ([9; 32; 160] ++ ups_sample ++ [13; 10; 8232])
     = _validFedexExpress ups_sample
  /\ _validFedexGround ([9; 32; 160] ++ ups_sample ++ [13; 10; 8232])
     = _validFedexGround ups_sample
  /\ _validUSPS ([9; 32; 160] ++ ups_sample ++ [13; 10; 8232])
     = _validUSPS ups_sample
  /\ IsTrackingNumber ([9; 32; 160] ++ ups_sample ++ [13; 10; 8232])
     = IsTrackingNumber ups_sample.
Proof.
  apply (padding_ignored [9; 32; 160] [13; 10; 8232] ups_sample);
    reflexivity.
Defined.

(** *** One carrier at most *)

Lemma gates_pairwise (t : jsstring) :
  ups_gate t && fedexExpress_gate t = false
  /\ ups_gate t && fedexGround_gate t = false
  /\ ups_gate t && usps_gate t = false
  /\ fedexExpress_gate t && fedexGround_gate t = false
  /\ fedexExpress_gate t && usps_gate t = false
  /\ fedexGround_gate t && usps_gate t = false.
Proof.
  destruct (ups_gate t) eqn:Hu;
    [apply ups_gate_true in Hu as [Lu Pu] | clear Hu];
  (destruct (fedexExpress_gate t) eqn:He;
    [unfold fedexExpress_gate in He;
     apply andb_true_iff in He as [Le _]; apply Z.eqb_eq in Le | clear He]);
  (destruct (fedexGround_gate t) eqn:Hg;
    [apply fedexGround_gate_true in Hg as [Lg Pg] | clear Hg]);
  (destruct (usps_gate t) eqn:Hs;
    [apply usps_gate_true in Hs as (Ls & Ps & _) | clear Hs]);
  cbn [andb]; try (repeat split; reflexivity); exfalso; try lia.
  all: repeat match goal with
         | P : substr _ 0 2 = _ |- _ => rewrite P in *; clear P
         | P : In _ (_ :: _) |- _ => destruct P as [P|P]
         | P : In _ [] |- _ => destruct P
         | P : lit _ = lit _ |- _ => discriminate P
         | P : lit _ = substr _ _ _ |- _ => symmetry in P
         end.
Qed.

(** X2. No input is accepted by two validators, so the order in which the
    dispatcher asks them never decides: it answers "ups" exactly when the
    UPS validator accepts, "fedex" exactly when one of the two FedEx
    validators accepts, and "usps" exactly when the USPS validator
    accepts. *)
Theorem validators_exclusive (s : jsstring) :
  (Nat.b2n (value (_validUPS s)) + Nat.b2n (_validFedexExpress s)
   + Nat.b2n (_validFedexGround s) + Nat.b2n (_validUSPS s) <= 1)%nat
  /\ (value (IsTrackingNumber s) = Some (lit "ups") <->
      value (_validUPS s) = true)
  /\ (value (IsTrackingNumber s) = Some (lit "fedex") <->
      _validFedexExpress s = true \/ _validFedexGround s = true)
  /\ (value (IsTrackingNumber s) = Some (lit "usps") <->
      _validUSPS s = true).
Proof.
  destruct (validators_pass_gates s) as (Gu & Ge & Gg & Gs).
  destruct (gates_pairwise (trim s)) as (P1 & P2 & P3 & P4 & P5 & P6).
  rewrite IsTrackingNumber_value.
  destruct (value (_validUPS s)); [rewrite Gu in * by reflexivity|];
    (destruct (_validFedexExpress s); [rewrite Ge in * by reflexivity|]);
    (destruct (_validFedexGround s); [rewrite Gg in * by reflexivity|]);
    (destruct (_validUSPS s); [rewrite Gs in * by reflexivity|]);
    try discriminate.
  all: cbn [Nat.b2n Nat.add]; split; [lia|].
  all: repeat split; intros; auto; try discriminate;
    repeat match goal with H : _ \/ _ |- _ => destruct H end;
    discriminate.
Qed.

(** X3. The UPS validator accepts exactly the inputs whose trimmed form
    has 18 characters, starts with "1Z", and whose last character fits the
    remainder [d] by 10 of the sum of the contributions of the 15
    characters in between: any last character when [d <= 0], and
    otherwise the digit [d] or the digit [10 - d]. *)
Theorem validUPS_accepts_iff (s : jsstring) :
  value (_validUPS s) = true <->
  len (trim s) = 18 /\ substr (trim s) 0 2 = lit "1Z"
  /\ exists check,
      nth_error (trim s) 17 = Some check
      /\ (Z.rem (ups_sum 1 (substr (trim s) 2 15)) 10 <= 0
          \/ digit_value check
             = Some (Z.rem (ups_sum 1 (substr (trim s) 2 15)) 10)
          \/ digit_value check
             = Some (10 - Z.rem (ups_sum 1 (substr (trim s) 2 15)) 10)).
Proof.
  destruct (Z.eq_dec (len (trim s)) 18) as [Hl|Hl];
    [|rewrite validUPS_rejects by tauto; split; [discriminate | tauto]].
  destruct (list_eq_dec Z.eq_dec (substr (trim s) 0 2) (lit "1Z")) as [Hp|Hp];
    [|rewrite validUPS_rejects by tauto; split; [discriminate | tauto]].
  rewrite (validUPS_unfold s Hl Hp).
  destruct (ups_shape _ Hl Hp) as (body & check & E & Hb).
  rewrite E in *; clear E.
  destruct (ups_shape_slices body check Hb)
    as (_ & _ & -> & -> & -> & _).
  rewrite ups_total_value.
  change (rem (Some (ups_sum 1 body)) (Some 10))
    with (Some (Z.rem (ups_sum 1 body) 10)).
  pose proof (rem10_bound (ups_sum 1 body)) as B.
  destruct (Z_le_gt_dec (Z.rem (ups_sum 1 body) 10) 0) as [Hd|Hd].
  - rewrite ups_verdict_nonpos by exact Hd.
    split; [intros _ | reflexivity].
    repeat split; try assumption; exists check; auto.
  - rewrite ups_verdict_pos by lia.
    split.
    + intros H; repeat split; try assumption; exists check; tauto.
    + intros (_ & _ & c' & Hc' & H); injection Hc' as <-.
      destruct H as [H|H]; [lia | exact H].
Qed.

(** X4. When the 15 characters of the body are all decimal digits or
    letters, the running total is not negative, so its remainder by 10 is
    one of 0 to 9. *)
Theorem ups_total_alphanumeric (body : jsstring) :
  forallb (fun c => is_digit c || is_letter c) body = true ->
  exists z, ups_total body = Some z /\ 0 <= z /\ 0 <= Z.rem z 10 <= 9.
Proof.
  intros H; exists (ups_sum 1 body).
  pose proof (ups_sum_nonneg body 1 H) as Hz.
  split; [apply ups_total_value | split; [exact Hz|]].
  pose proof (Z.rem_bound_pos (ups_sum 1 body) 10 Hz); lia.
Qed.

Lemma ups_total_alphanumeric_witness :
  exists z, ups_total (lit "999AA1012345678") = Some z
            /\ 0 <= z /\ 0 <= Z.rem z 10 <= 9.
Proof. apply (ups_total_alphanumeric (lit "999AA1012345678")); reflexivity. Defined.

(** *** FedEx Express: the check character *)

Section ExpressCheck.

Lemma trim_single (a : Z) : is_white_space a = false -> trim [a] = [a].
Proof.
  intros H; unfold trim, trimEnd; cbn [trimStart rev app].
  rewrite H; cbn [trimStart rev app]; rewrite H; reflexivity.
Qed.

(** A string whose first and last characters are not white space is its
    own trimmed form. *)
Lemma trim_ends (s : jsstring) (a b : Z) (m m' : jsstring) :
  s = a :: m -> s = m' ++ [b] ->
  is_white_space a = false -> is_white_space b = false -> trim s = s.
Proof.
  intros Ha Hb Wa Wb.
  destruct m' as [|a' m'].
  - cbn [app] in Hb; rewrite Hb; apply trim_single; exact Wb.
  - rewrite Hb in Ha; injection Ha as -> _.
    rewrite Hb; apply (trim_id a b m'); assumption.
Qed.

Lemma trim_digits (s : jsstring) : forallb is_digit s = true -> trim s = s.
Proof.
  intros H.
  destruct s as [|a m] eqn:Es; [reflexivity|].
  destruct (exists_last (l := a :: m) ltac:(discriminate)) as (m' & b & Eb).
  apply (trim_ends (a :: m) a b m m' eq_refl Eb).
  - cbn [forallb] in H; apply andb_true_iff in H as [H _].
    apply digit_not_white_space; exact H.
  - rewrite Eb, forallb_app in H; cbn [forallb] in H.
    apply andb_true_iff in H as [_ H]; apply andb_true_iff in H as [H _].
    apply digit_not_white_space; exact H.
Qed.

Lemma express_check_bound (cs : list Z) : 0 <= express_check cs <= 9.
Proof.
  unfold express_check.
  pose proof (Z.mod_pos_bound (express_sum 0 cs) 11 ltac:(lia)).
  destruct (Z.eqb_spec (express_sum 0 cs mod 11) 10); lia.
Qed.

Lemma digit_value_eq (c d : Z) :
  0 <= d <= 9 -> digit_value c = Some d <-> c = 48 + d.
Proof.
  intros Hd; unfold digit_value, is_digit.
  destruct (Z.leb_spec 48 c), (Z.leb_spec c 57); cbn [andb];
    (split; [intros Hv; try discriminate; injection Hv; lia
            | intros ->; try lia; f_equal; lia]).
Qed.

End ExpressCheck.

(** X5. After 11 decimal digits exactly one twelfth character makes the
    FedEx Express validator accept: the digit of the weighted sum modulo
    11, with 10 read as 0. *)
Theorem fedexExpress_check_character (body : jsstring) (c : Z) :
  length body = 11%nat -> forallb is_digit body = true ->
  _validFedexExpress (body ++ [c]) = true <-> c = 48 + express_check body.
Proof.
  intros Hl Hd.
  pose proof (express_check_bound body) as B.
  rewrite validFedexExpress_spec.
  destruct (is_white_space c) eqn:Wc.
  - replace (trim (body ++ [c])) with body
      by (symmetry; rewrite <- (trim_digits body Hd) at 2;
          apply (trim_padding [] [c] body); [reflexivity|];
          cbn [forallb]; rewrite Wc; reflexivity).
    split; [intros (H & _); unfold len in H; lia|].
    intros ->; unfold is_white_space in Wc; lia.
  - assert (Ht : trim (body ++ [c]) = body ++ [c]).
    { destruct body as [|a m] eqn:Eb; [discriminate|].
      apply (trim_ends _ a c (m ++ [c]) (a :: m)); try reflexivity;
        [|exact Wc].
      cbn [forallb] in Hd; apply andb_true_iff in Hd as [Hd _].
      apply digit_not_white_space; exact Hd. }
    rewrite Ht.
    assert (Hf : firstn 11 (body ++ [c]) = body)
      by (rewrite <- Hl, firstn_app, Nat.sub_diag, firstn_all;
          cbn [firstn]; apply app_nil_r).
    assert (Hn : nth_error (body ++ [c]) 11 = Some c)
      by (rewrite <- Hl; apply nth_error_middle).
    rewrite Hf, Hn, Hd, <- (digit_value_eq c _ B).
    split.
    + intros (_ & _ & c' & Hc' & H); injection Hc' as <-; exact H.
    + intros H; repeat split; [unfold len; rewrite length_app, Hl;
                               reflexivity | exists c; auto].
Qed.

Lemma fedexExpress_check_character_witness :
  _validFedexExpress (lit "12345678901" ++ [50]) = true <->
  50 = 48 + express_check (lit "12345678901").
Proof.
  apply (fedexExpress_check_character (lit "12345678901") 50); reflexivity.
Defined.

(** *** FedEx Ground and USPS: one wrong character *)

Section SingleError.

Variable w : Z.

Lemma sum_where_app (p : Z -> bool) (xs ys : list Z) :
  forall i,
    sum_where p i (xs ++ ys) =
    sum_where p i xs + sum_where p (i + len xs) ys.
Proof.
  induction xs as [|a xs IH]; intros i; cbn [sum_where app].
  - replace (i + len []) with i by (unfold len; cbn [length]; lia); lia.
  - rewrite IH.
    replace (i + 1 + len xs) with (i + len (a :: xs))
      by (unfold len; cbn [length]; lia).
    lia.
Qed.

(** Changing one digit moves the weighted total by three times the
    difference, or by the difference, according to its place. *)
Lemma rtl_total_change (pre post : list Z) (a b : Z) :
  rtl_total w (pre ++ a :: post) =
  rtl_total w (pre ++ b :: post)
  + (if even_place w (len pre) then 3 else 1) * (a - b).
Proof.
  unfold rtl_total, even_sum, odd_sum.
  rewrite !sum_where_app; cbn [sum_where]; rewrite !Z.add_0_l.
  destruct (even_place w (len pre)); cbn [negb]; lia.
Qed.

Lemma rtl_verdict_digits (win : jsstring) (n : nat) :
  length win = S n -> Z.of_nat n <= w ->
  rtl_verdict w win n = true -> forallb is_digit (firstn n win) = true.
Proof.
  intros Hl Hw; unfold rtl_verdict; rewrite rtl_for_spec by lia.
  destruct (forallb is_digit (firstn n win)); [reflexivity | discriminate].
Qed.

Lemma firstn_snoc_all (xs : list Z) (c : Z) :
  firstn (length xs) (xs ++ [c]) = xs
  /\ nth_error (xs ++ [c]) (length xs) = Some c.
Proof.
  split; [|apply nth_error_middle].
  rewrite firstn_app, Nat.sub_diag, firstn_all; apply app_nil_r.
Qed.

Lemma nil_or_snoc (l : list Z) : l = [] \/ exists l' c, l = l' ++ [c].
Proof.
  destruct l as [|a l]; [left; reflexivity | right].
  destruct (exists_last (l := a :: l) ltac:(discriminate)) as (l' & c & E).
  exists l', c; exact E.
Qed.

Lemma digit_value_inj (a b x : Z) :
  digit_value a = Some x -> digit_value b = Some x -> a = b.
Proof.
  unfold digit_value; intros Ha Hb.
  destruct (is_digit a), (is_digit b); try discriminate.
  assert (a - 48 = x) by congruence; assert (b - 48 = x) by congruence; lia.
Qed.

(** Two windows that differ in exactly one character, wherever it is, are
    not both accepted. *)
Lemma rtl_verdict_single_error (n : nat) (pre post : jsstring) (a b : Z) :
  length (pre ++ a :: post) = S n -> Z.of_nat n <= w -> a <> b ->
  rtl_verdict w (pre ++ a :: post) n = true ->
  rtl_verdict w (pre ++ b :: post) n = false.
Proof.
  intros Hl Hw Hab Ha.
  assert (Hl' : length (pre ++ b :: post) = S n)
    by (rewrite length_app in *; cbn [length] in *; lia).
  apply not_true_iff_false; intros Hb.
  pose proof (rtl_verdict_digits _ n Hl Hw Ha) as Da.
  pose proof (rtl_verdict_digits _ n Hl' Hw Hb) as Db.
  apply (rtl_verdict_spec w _ n Hl Hw Da) in Ha as (ca & Hca & Va).
  apply (rtl_verdict_spec w _ n Hl' Hw Db) in Hb as (cb & Hcb & Vb).
  destruct (nil_or_snoc post) as [-> | (post' & c & ->)].
  - (* the check character *)
    assert (Hn : length pre = n)
      by (rewrite length_app in Hl; cbn [length] in Hl; lia).
    rewrite <- Hn in *.
    destruct (firstn_snoc_all pre a) as [Fa Na].
    destruct (firstn_snoc_all pre b) as [Fb Nb].
    rewrite Fa, Na in *; rewrite Fb, Nb in *.
    injection Hca as <-; injection Hcb as <-.
    apply Hab; eapply digit_value_inj; eassumption.
  - (* a digit of the body *)
    assert (Hn : length (pre ++ a :: post') = n)
      by (rewrite !length_app in Hl; cbn [length] in Hl;
          rewrite length_app in Hl; cbn [length] in Hl;
          rewrite length_app; cbn [length]; lia).
    assert (Hn' : length (pre ++ b :: post') = n)
      by (rewrite length_app in Hn; rewrite length_app;
          cbn [length] in Hn |- *; lia).
    replace (pre ++ a :: post' ++ [c]) with ((pre ++ a :: post') ++ [c])
      in * by (rewrite <- app_assoc; reflexivity).
    replace (pre ++ b :: post' ++ [c]) with ((pre ++ b :: post') ++ [c])
      in * by (rewrite <- app_assoc; reflexivity).
    destruct (firstn_snoc_all (pre ++ a :: post') c) as [Fa Na].
    destruct (firstn_snoc_all (pre ++ b :: post') c) as [Fb Nb].
    rewrite Hn in Fa, Na; rewrite Hn' in Fb, Nb.
    rewrite Fa, Na in *; rewrite Fb, Nb in *.
    injection Hca as <-; injection Hcb as <-.
    assert (Vab : 10 - rtl_total w (pre ++ a :: post') mod 10
                  = 10 - rtl_total w (pre ++ b :: post') mod 10)
      by congruence.
    clear Va Vb.
    rewrite forallb_app in Da, Db; cbn [forallb] in Da, Db.
    apply andb_true_iff in Da as (_ & Da); apply andb_true_iff in Da as (Da & _).
    apply andb_true_iff in Db as (_ & Db); apply andb_true_iff in Db as (Db & _).
    unfold is_digit in Da, Db.
    pose proof (rtl_total_change pre post' a b) as E.
    destruct (even_place w (len pre));
      Z.div_mod_to_equations; lia.
Qed.

End SingleError.

(** X6. FedEx Ground and USPS detect any single wrong character: of two
    inputs whose windows (the last 15, or 22, characters) differ in
    exactly one place, at most one is accepted. *)
Theorem single_character_error_detected
  (s s' pre post : jsstring) (a b : Z) :
  a <> b ->
  (substr (trim s) (len (trim s) - 15) 15 = pre ++ a :: post ->
   substr (trim s') (len (trim s') - 15) 15 = pre ++ b :: post ->
   _validFedexGround s = true -> _validFedexGround s' = false)
  /\ (substr (trim s) (len (trim s) - 22) 22 = pre ++ a :: post ->
      substr (trim s') (len (trim s') - 22) 22 = pre ++ b :: post ->
      _validUSPS s = true -> _validUSPS s' = false).
Proof.
  intros Hab; split; intros Hw Hw' Hv.
  - rewrite validFedexGround_unfold in *.
    apply andb_true_iff in Hv as [Hg Hv].
    apply fedexGround_gate_true in Hg as [Hl _].
    pose proof (window_length (trim s) 15 ltac:(unfold len in Hl; lia)) as L.
    change (Z.of_nat 15) with 15 in L; rewrite Hw in L, Hv; rewrite Hw'.
    rewrite (rtl_verdict_single_error 15 14 pre post a b L ltac:(lia) Hab Hv).
    apply andb_false_r.
  - rewrite validUSPS_unfold in *.
    apply andb_true_iff in Hv as [Hg Hv].
    apply usps_gate_true in Hg as [Hl _].
    pose proof (window_length (trim s) 22 ltac:(unfold len in Hl; lia)) as L.
    change (Z.of_nat 22) with 22 in L; rewrite Hw in L, Hv; rewrite Hw'.
    rewrite (rtl_verdict_single_error 22 21 pre post a b L ltac:(lia) Hab Hv).
    apply andb_false_r.
Qed.

Lemma single_character_error_detected_witness :
  _validFedexGround (lit "963000000000027") = false
  /\ _validUSPS (lit "9102000000000000000027") = false.
Proof.
  split.
  - apply (proj1 (single_character_error_detected
                    (lit "963000000000017") (lit "963000000000027")
                    (lit "9630000000000") (lit "7") 49 50 ltac:(lia)));
      reflexivity.
  - apply (proj2 (single_character_error_detected
                    (lit "9102000000000000000017")
                    (lit "9102000000000000000027")
                    (lit "91020000000000000000") (lit "7") 49 50
                    ltac:(lia)));
      reflexivity.
Defined.

(** *** FedEx Ground and USPS: the same weights from the right *)

Lemma alt31_rtl (w : Z) (cs : list Z) :
  rtl_total w cs = alt31 ((w - len cs + 1) mod 2 =? 0) (rev cs).
Proof.
  induction cs as [|c cs IH] using rev_ind; [reflexivity|].
  rewrite rev_app_distr; cbn [rev app alt31].
  rewrite len_snoc.
  replace (w - (len cs + 1) + 1) with (w - len cs) by lia.
  assert (E : negb ((w - len cs) mod 2 =? 0)
              = ((w - len cs + 1) mod 2 =? 0)).
  { destruct (Z.eqb_spec ((w - len cs) mod 2) 0),
      (Z.eqb_spec ((w - len cs + 1) mod 2) 0); cbn [negb];
      try reflexivity; exfalso; Z.div_mod_to_equations; lia. }
  rewrite E, <- IH.
  unfold rtl_total, even_sum, odd_sum.
  rewrite !sum_where_snoc, !Z.add_0_l; unfold even_place.
  destruct ((w - len cs) mod 2 =? 0); cbn [negb]; lia.
Qed.

Lemma rtl_total_from_right (w : Z) (cs : list Z) :
  w = len cs + 1 -> rtl_total w cs = alt31 true (rev cs).
Proof.
  intros ->; rewrite alt31_rtl.
  replace (len cs + 1 - len cs + 1) with 2 by lia; reflexivity.
Qed.

(** The loop of either validator over a window of [n + 1] characters, the
    first [n] of them digits: three times the even total plus the odd
    total is the sum of the digits weighted 3, 1, 3, 1, ... from the
    right. *)
Lemma rtl_for_from_right (w : Z) (win : jsstring) (n : nat) :
  w = Z.of_nat n + 1 -> length win = S n ->
  forallb is_digit (firstn n win) = true ->
  exists e o,
    rtl_for w win n (Z.of_nat n - 1) (Some 0) (Some 0) = Some (Some e, Some o)
    /\ e * 3 + o = alt31 true (rev (firstn n win)).
Proof.
  intros Hw Hl Hd.
  exists (0 + even_sum w (firstn n win)), (0 + odd_sum w (firstn n win)).
  rewrite rtl_for_spec, Hd by lia; split; [reflexivity|].
  rewrite <- (rtl_total_from_right w (firstn n win))
    by (unfold len; rewrite length_firstn; lia).
  unfold rtl_total; lia.
Qed.

(** X7. The loops of the two validators weigh the digits before the check
    character alike, counted from the right: past its tests and on a
    window of digits, each loop ends with totals such that
    [evenTotal * 3 + oddTotal] is the sum of the 14 (21) digits taken
    from the right with the weights 3, 1, 3, 1, ..., and each validator
    accepts exactly when the last character is the digit 10 less that
    sum modulo 10. *)
Theorem weights_from_the_right (s : jsstring) :
  (fedexGround_gate (trim s) = true ->
   forallb is_digit
     (firstn 14 (substr (trim s) (len (trim s) - 15) 15)) = true ->
   (exists e o,
      fedexGround_for (substr (trim s) (len (trim s) - 15) 15) 14 13
                      (Some 0) (Some 0) = Some (Some e, Some o)
      /\ e * 3 + o
         = alt31 true
             (rev (firstn 14 (substr (trim s) (len (trim s) - 15) 15))))
   /\ (_validFedexGround s = true <->
       exists c,
         nth_error (substr (trim s) (len (trim s) - 15) 15) 14 = Some c
         /\ digit_value c
            = Some (10 - alt31 true
                           (rev (firstn 14
                                   (substr (trim s) (len (trim s) - 15) 15)))
                         mod 10)))
  /\ (usps_gate (trim s) = true ->
      forallb is_digit
        (firstn 21 (substr (trim s) (len (trim s) - 22) 22)) = true ->
      (exists e o,
         usps_for (substr (trim s) (len (trim s) - 22) 22) 21 20
                  (Some 0) (Some 0) = Some (Some e, Some o)
         /\ e * 3 + o
            = alt31 true
                (rev (firstn 21 (substr (trim s) (len (trim s) - 22) 22))))
      /\ (_validUSPS s = true <->
          exists c,
            nth_error (substr (trim s) (len (trim s) - 22) 22) 21 = Some c
            /\ digit_value c
               = Some (10 - alt31 true
                              (rev (firstn 21
                                      (substr (trim s)
                                              (len (trim s) - 22) 22)))
                            mod 10))).
Proof.
  split; intros Hg Hd.
  - assert (Hl : length (substr (trim s) (len (trim s) - 15) 15) = 15%nat).
    { apply fedexGround_gate_true in Hg as [Hl _].
      apply (window_length (trim s) 15); unfold len in Hl; lia. }
    split.
    + rewrite fedexGround_for_rtl.
      apply (rtl_for_from_right 15 _ 14); [reflexivity | exact Hl | exact Hd].
    + rewrite <- (rtl_total_from_right 15
                    (firstn 14 (substr (trim s) (len (trim s) - 15) 15)))
        by (unfold len at 1; rewrite length_firstn, Hl; reflexivity).
      apply validFedexGround_spec; assumption.
  - assert (Hl : length (substr (trim s) (len (trim s) - 22) 22) = 22%nat).
    { apply usps_gate_true in Hg as [Hl _].
      apply (window_length (trim s) 22); unfold len in Hl; lia. }
    split.
    + rewrite usps_for_rtl.
      apply (rtl_for_from_right 22 _ 21); [reflexivity | exact Hl | exact Hd].
    + rewrite <- (rtl_total_from_right 22
                    (firstn 21 (substr (trim s) (len (trim s) - 22) 22)))
        by (unfold len at 1; rewrite length_firstn, Hl; reflexivity).
      apply validUSPS_spec; assumption.
Qed.

Lemma weights_from_the_right_witness :
  (exists e o,
     fedexGround_for (lit "963000000000017") 14 13 (Some 0) (Some 0)
     = Some (Some e, Some o)
     /\ e * 3 + o = alt31 true (rev (lit "96300000000001")))
  /\ (exists e o,
        usps_for (lit "9102000000000000000017") 21 20 (Some 0) (Some 0)
        = Some (Some e, Some o)
        /\ e * 3 + o = alt31 true (rev (lit "910200000000000000001"))).
Proof.
  split.
  - apply (proj1 (proj1 (weights_from_the_right (lit "963000000000017"))
                    eq_refl eq_refl)).
  - apply (proj1 (proj2 (weights_from_the_right
                           (lit "9102000000000000000017"))
                    eq_refl eq_refl)).
Defined.

(** *** FedEx Ground and USPS: what is and is not looked at *)

Section Windows.

(** The last [k] characters of a string that ends with the [k]
    characters [win]. *)
Lemma window_app (pre win : jsstring) (k : nat) :
  length win = k ->
  substr (pre ++ win) (len (pre ++ win) - Z.of_nat k) (Z.of_nat k) = win.
Proof.
  intros Hk; unfold substr, len; rewrite length_app, Hk.
  destruct (Z.ltb_spec (Z.of_nat (length pre + k) - Z.of_nat k) 0); [lia|].
  replace (Z.to_nat (Z.of_nat (length pre + k) - Z.of_nat k))
    with (length pre) by lia.
  rewrite Nat2Z.id, skipn_app, skipn_all, Nat.sub_diag; cbn [skipn app].
  rewrite <- Hk; apply firstn_all.
Qed.

Lemma digit_value_is_digit (c x : Z) :
  digit_value c = Some x -> is_digit c = true /\ x = c - 48.
Proof.
  unfold digit_value; destruct (is_digit c); [|discriminate].
  intros H; split; [reflexivity | congruence].
Qed.

(** An accepted window: all its characters are digits, and the weighted
    total of the first [n] is no multiple of 10. *)
Lemma rtl_verdict_window (w : Z) (win : jsstring) (n : nat) :
  length win = S n -> Z.of_nat n <= w ->
  rtl_verdict w win n = true ->
  forallb is_digit win = true /\ rtl_total w (firstn n win) mod 10 <> 0.
Proof.
  intros Hl Hw Hv.
  pose proof (rtl_verdict_digits w win n Hl Hw Hv) as Hd.
  apply (rtl_verdict_spec w win n Hl Hw Hd) in Hv as (c & Hc & Vc).
  apply digit_value_is_digit in Vc as [Dc Vc].
  destruct (split_last win n Hl) as (c' & Hc' & E).
  rewrite Hc in Hc'; injection Hc' as <-.
  split.
  - rewrite E, forallb_app, Hd; cbn [forallb]; rewrite Dc; reflexivity.
  - unfold is_digit in Dc; lia.
Qed.

(** A prefix, anything at all, and then a window that checks: the
    trimmed form is the string itself and its window is the end. *)
Lemma framed_window (a b : Z) (mid body : jsstring) (c : Z) (k : nat) :
  is_white_space a = false -> is_digit c = true -> length body = k ->
  let s := [a; b] ++ mid ++ body ++ [c] in
  trim s = s
  /\ substr s 0 2 = [a; b]
  /\ Z.of_nat (S k) <= len s
  /\ substr s (len s - Z.of_nat (S k)) (Z.of_nat (S k)) = body ++ [c].
Proof.
  intros Wa Dc Hk s.
  repeat split.
  - apply (trim_ends s a c (b :: mid ++ body ++ [c])
                     ([a; b] ++ mid ++ body));
      [reflexivity | | exact Wa | apply digit_not_white_space; exact Dc].
    unfold s; rewrite <- !app_assoc; reflexivity.
  - unfold s, len; rewrite !length_app, Hk; cbn [length]; lia.
  - unfold s.
    replace ([a; b] ++ mid ++ body ++ [c])
      with (([a; b] ++ mid) ++ body ++ [c])
      by (rewrite <- app_assoc; reflexivity).
    apply window_app; rewrite length_app, Hk; cbn [length]; lia.
Qed.

End Windows.

(** X8. FedEx Ground and USPS look at the first two characters and at the
    window only: after an accepted prefix, any characters whatever may
    come before a window of digits that ends with its check digit, and
    the input is accepted. *)
Theorem characters_before_window_ignored (p mid body : jsstring) (c : Z) :
  forallb is_digit body = true ->
  (In p [lit "96"; lit "00"] -> length body = 14%nat ->
   digit_value c = Some (10 - rtl_total 15 body mod 10) ->
   _validFedexGround (p ++ mid ++ body ++ [c]) = true)
  /\ (In p [lit "91"; lit "71"; lit "73"; lit "77"; lit "81"] ->
      length body = 21%nat ->
      digit_value c = Some (10 - rtl_total 22 body mod 10) ->
      _validUSPS (p ++ mid ++ body ++ [c]) = true).
Proof.
  intros Hd; split; intros Hp Hl Hc;
    pose proof (digit_value_is_digit _ _ Hc) as [Dc _].
  - assert (Hf : exists a b, p = [a; b] /\ is_white_space a = false)
      by (cbn in Hp; destruct Hp as [<-|[<-|[]]];
          do 2 eexists; split; reflexivity).
    destruct Hf as (a & b & -> & Wa).
    destruct (framed_window a b mid body c 14 Wa Dc Hl) as (Ht & H2 & Hlen & Hw).
    change (Z.of_nat 15) with 15 in Hlen, Hw.
    destruct (firstn_snoc_all body c) as [F N]; rewrite Hl in F, N.
    apply validFedexGround_spec; rewrite Ht, ?Hw, ?F.
    + apply fedexGround_gate_true; rewrite H2; split; [lia | exact Hp].
    + exact Hd.
    + exists c; auto.
  - assert (Hf : exists a b, p = [a; b] /\ is_white_space a = false)
      by (cbn in Hp; destruct Hp as [<-|[<-|[<-|[<-|[<-|[]]]]]];
          do 2 eexists; split; reflexivity).
    destruct Hf as (a & b & -> & Wa).
    destruct (framed_window a b mid body c 21 Wa Dc Hl) as (Ht & H2 & Hlen & Hw).
    change (Z.of_nat 22) with 22 in Hlen, Hw.
    destruct (firstn_snoc_all body c) as [F N]; rewrite Hl in F, N.
    apply validUSPS_spec; rewrite Ht, ?Hw, ?F.
    + apply usps_gate_true; rewrite H2; split; [lia|].
      split; [exact Hp|].
      apply usps_prefix_not_420; rewrite H2; exact Hp.
    + exact Hd.
    + exists c; auto.
Qed.

Lemma characters_before_window_ignored_witness :
  _validFedexGround
    (lit "96" ++ lit " <b>&?x=1 " ++ lit "96300000000001" ++ [55]) = true
  /\ _validUSPS
       (lit "91" ++ lit "#/../" ++ lit "910200000000000000001" ++ [55])
     = true.
Proof.
  split.
  - apply (proj1 (characters_before_window_ignored
                    (lit "96") (lit " <b>&?x=1 ") (lit "96300000000001") 55
                    eq_refl));
      [left; reflexivity | reflexivity | reflexivity].
  - apply (proj2 (characters_before_window_ignored
                    (lit "91") (lit "#/../") (lit "910200000000000000001") 55
                    eq_refl));
      [left; reflexivity | reflexivity | reflexivity].
Defined.

(** X9. What an accepted FedEx or USPS input looks like.  FedEx Express:
    the trimmed input is 12 decimal digits.  FedEx Ground and USPS: the
    trimmed input starts with an accepted prefix, its last 15 (22)
    characters are decimal digits, and the weighted total of the first 14
    (21) of them is no multiple of 10. *)
Theorem accepted_inputs (s : jsstring) :
  (_validFedexExpress s = true ->
   len (trim s) = 12 /\ forallb is_digit (trim s) = true)
  /\ (_validFedexGround s = true ->
      15 <= len (trim s)
      /\ In (substr (trim s) 0 2) [lit "96"; lit "00"]
      /\ forallb is_digit (substr (trim s) (len (trim s) - 15) 15) = true
      /\ rtl_total 15 (firstn 14 (substr (trim s) (len (trim s) - 15) 15))
         mod 10 <> 0)
  /\ (_validUSPS s = true ->
      22 <= len (trim s)
      /\ In (substr (trim s) 0 2)
            [lit "91"; lit "71"; lit "73"; lit "77"; lit "81"]
      /\ forallb is_digit (substr (trim s) (len (trim s) - 22) 22) = true
      /\ rtl_total 22 (firstn 21 (substr (trim s) (len (trim s) - 22) 22))
         mod 10 <> 0).
Proof.
  repeat split.
  - apply validFedexExpress_spec in H; tauto.
  - apply validFedexExpress_spec in H as (Hl & Hd & c & Hc & Vc).
    destruct (split_last (trim s) 11 ltac:(unfold len in Hl; lia))
      as (c' & Hc' & E).
    rewrite Hc in Hc'; injection Hc' as <-.
    apply digit_value_is_digit in Vc as [Dc _].
    rewrite E, forallb_app, Hd; cbn [forallb]; rewrite Dc; reflexivity.
  - rewrite validFedexGround_unfold in H; apply andb_true_iff in H as [H _].
    apply fedexGround_gate_true in H; tauto.
  - rewrite validFedexGround_unfold in H; apply andb_true_iff in H as [H _].
    apply fedexGround_gate_true in H; tauto.
  - rewrite validFedexGround_unfold in H; apply andb_true_iff in H as [Hg H].
    apply fedexGround_gate_true in Hg as [Hl _].
    apply (rtl_verdict_window 15 _ 14) in H; [tauto | | lia].
    apply (window_length (trim s) 15); unfold len in Hl; lia.
  - rewrite validFedexGround_unfold in H; apply andb_true_iff in H as [Hg H].
    apply fedexGround_gate_true in Hg as [Hl _].
    apply (rtl_verdict_window 15 _ 14) in H; [tauto | | lia].
    apply (window_length (trim s) 15); unfold len in Hl; lia.
  - rewrite validUSPS_unfold in H; apply andb_true_iff in H as [H _].
    apply usps_gate_true in H; tauto.
  - rewrite validUSPS_unfold in H; apply andb_true_iff in H as [H _].
    apply usps_gate_true in H; tauto.
  - rewrite validUSPS_unfold in H; apply andb_true_iff in H as [Hg H].
    apply usps_gate_true in Hg as [Hl _].
    apply (rtl_verdict_window 22 _ 21) in H; [tauto | | lia].
    apply (window_length (trim s) 22); unfold len in Hl; lia.
  - rewrite validUSPS_unfold in H; apply andb_true_iff in H as [Hg H].
    apply usps_gate_true in Hg as [Hl _].
    apply (rtl_verdict_window 22 _ 21) in H; [tauto | | lia].
    apply (window_length (trim s) 22); unfold len in Hl; lia.
Qed.

Lemma accepted_inputs_witness :
  len (trim (lit " 123456789012 ")) = 12
  /\ forallb is_digit (trim (lit " 123456789012 ")) = true.
Proof.
  apply (proj1 (accepted_inputs (lit " 123456789012 "))); reflexivity.
Defined.

(** *** The console *)

Lemma IsTrackingNumber_printed (s : jsstring) :
  printed (IsTrackingNumber s) = printed (_validUPS s).
Proof.
  unfold IsTrackingNumber, bind, printed.
  destruct (_validUPS s) as [out ups].
  destruct ups, (_validFedexExpress s), (_validFedexGround s), (_validUSPS s);
    cbv beta iota zeta delta [ret fst orb]; apply app_nil_r.
Qed.

Lemma GetTrackingURL_printed (s : jsstring) :
  printed (GetTrackingURL s) = printed (IsTrackingNumber s).
Proof.
  unfold GetTrackingURL, bind, printed.
  destruct (IsTrackingNumber s) as [out track].
  destruct (str_loose_eqb track (lit "ups")),
    (str_loose_eqb track (lit "fedex")), (str_loose_eqb track (lit "usps"));
    cbv beta iota zeta delta [ret fst]; apply app_nil_r.
Qed.

(** X10. The dispatcher and the URL builder print exactly what the UPS
    validator prints: the 15 characters after "1Z" when the trimmed input
    has 18 characters and starts with "1Z", whether or not it is then
    accepted, and nothing otherwise. *)
Theorem console_output (s : jsstring) :
  printed (IsTrackingNumber s) =
  (if ups_gate (trim s) then [substr (trim s) 2 15] else [])
  /\ printed (GetTrackingURL s) =
     (if ups_gate (trim s) then [substr (trim s) 2 15] else []).
Proof.
  rewrite GetTrackingURL_printed, IsTrackingNumber_printed, validUPS_printed.
  split; reflexivity.
Qed.

(** *** The URL *)

Lemma GetTrackingURL_cases (s : jsstring) :
  value (GetTrackingURL s) = None
  \/ value (GetTrackingURL s) =
     Some (lit "http://wwwapps.ups.com/tracking/tracking.cgi?tracknum=" ++ s)
  \/ value (GetTrackingURL s) =
     Some (lit "http://www.fedex.com/Tracking?tracknumbers=" ++ s)
  \/ value (GetTrackingURL s) =
     Some (lit "http://trkcnfrm1.smi.usps.com/PTSInternetWeb/InterLabelInquiry.do?strOrigTrackNum="
           ++ s).
Proof.
  rewrite GetTrackingURL_value; cbv zeta.
  destruct (str_loose_eqb (value (IsTrackingNumber s)) (lit "ups")),
    (str_loose_eqb (value (IsTrackingNumber s)) (lit "fedex")),
    (str_loose_eqb (value (IsTrackingNumber s)) (lit "usps")); tauto.
Qed.

Lemma GetTrackingURL_same_url (s s' u : jsstring) :
  value (GetTrackingURL s) = Some u ->
  value (GetTrackingURL s') = Some u ->
  s = s'.
Proof.
  intros H H'.
  destruct (GetTrackingURL_cases s) as [E|[E|[E|E]]];
    (destruct (GetTrackingURL_cases s') as [E'|[E'|[E'|E']]]);
    rewrite E in H; rewrite E' in H'; try discriminate H; try discriminate H'.
  all: match type of H with
       | Some ?x = _ =>
           match type of H' with
           | Some ?y = _ => assert (L : x = y) by congruence; clear H H'
           end
       end.
  all: try (apply app_inv_head in L; exact L).
  all: exfalso; vm_compute in L; discriminate L.
Qed.

(** X11. The URL tells the input: two different inputs, be it by white
    space only, never get the same URL. *)
Theorem GetTrackingURL_injective (s s' : jsstring) :
  s <> s' ->
  value (GetTrackingURL s) <> None ->
  value (GetTrackingURL s) <> value (GetTrackingURL s').
Proof.
  intros Hne Hs E.
  destruct (value (GetTrackingURL s)) as [u|] eqn:Eu; [|congruence].
  apply Hne; apply (GetTrackingURL_same_url s s' u); congruence.
Qed.

Lemma GetTrackingURL_injective_witness :
  value (GetTrackingURL (lit "1Z999AA10123456784")) <>
  value (GetTrackingURL (lit " 1Z999AA10123456784")).
Proof.
  apply (GetTrackingURL_injective
           (lit "1Z999AA10123456784") (lit " 1Z999AA10123456784"));
    vm_compute; discriminate.
Defined.

(** *** FedEx Express: one wrong digit *)

Lemma express_sum_change (pre post : list Z) (a b : Z) :
  forall i,
    express_sum i (pre ++ a :: post) =
    express_sum i (pre ++ b :: post) + express_weight (i + len pre) * (a - b).
Proof.
  induction pre as [|p pre IH]; intros i; cbn [app express_sum].
  - replace (i + len []) with i by (unfold len; cbn [length]; lia); lia.
  - rewrite IH.
    replace (i + 1 + len pre) with (i + len (p :: pre))
      by (unfold len; cbn [length]; lia).
    lia.
Qed.

(** X12. FedEx Express detects one wrong digit among the first 11 unless
    the check character is 0: two accepted inputs that differ in exactly
    one of their first 11 characters both end with the character 0 (their
    sums are 0 and 10 modulo 11, which the code does not tell apart). *)
Theorem fedexExpress_single_error (s s' pre post : jsstring) (a b c : Z) :
  a <> b ->
  trim s = pre ++ a :: post ++ [c] ->
  trim s' = pre ++ b :: post ++ [c] ->
  _validFedexExpress s = true -> _validFedexExpress s' = true ->
  c = 48.
Proof.
  intros Hab Hs Hs' Hv Hv'.
  apply validFedexExpress_spec in Hv as (Hl & Hd & x & Hx & Vx).
  apply validFedexExpress_spec in Hv' as (Hl' & Hd' & x' & Hx' & Vx').
  rewrite Hs in *; rewrite Hs' in *.
  assert (Hn : length (pre ++ a :: post) = 11%nat)
    by (unfold len in Hl; rewrite !length_app in Hl; cbn [length] in Hl;
        rewrite length_app in Hl; cbn [length] in Hl;
        rewrite length_app; cbn [length]; lia).
  assert (Hn' : length (pre ++ b :: post) = 11%nat)
    by (rewrite length_app in Hn; rewrite length_app;
        cbn [length] in Hn |- *; lia).
  replace (pre ++ a :: post ++ [c]) with ((pre ++ a :: post) ++ [c])
    in * by (rewrite <- app_assoc; reflexivity).
  replace (pre ++ b :: post ++ [c]) with ((pre ++ b :: post) ++ [c])
    in * by (rewrite <- app_assoc; reflexivity).
  destruct (firstn_snoc_all (pre ++ a :: post) c) as [Fa Na].
  destruct (firstn_snoc_all (pre ++ b :: post) c) as [Fb Nb].
  rewrite Hn in Fa, Na; rewrite Hn' in Fb, Nb.
  rewrite Fa, Na in *; rewrite Fb, Nb in *.
  assert (x = c) by congruence; assert (x' = c) by congruence; subst x x'.
  apply digit_value_is_digit in Vx as [_ Vx].
  apply digit_value_is_digit in Vx' as [_ Vx'].
  rewrite forallb_app in Hd, Hd'; cbn [forallb] in Hd, Hd'.
  apply andb_true_iff in Hd as (_ & Hd); apply andb_true_iff in Hd as (Da & _).
  apply andb_true_iff in Hd' as (_ & Hd'); apply andb_true_iff in Hd' as (Db & _).
  unfold is_digit in Da, Db.
  pose proof (express_sum_change pre post a b 0) as E.
  unfold express_check in Vx, Vx'.
  destruct (Z.eqb_spec (express_sum 0 (pre ++ a :: post) mod 11) 10) as [Ra|Ra];
    destruct (Z.eqb_spec (express_sum 0 (pre ++ b :: post) mod 11) 10) as [Rb|Rb];
    try lia.
  exfalso.
  destruct (express_weight_cases (0 + len pre)) as [W|[W|W]]; rewrite W in E;
    Z.div_mod_to_equations; lia.
Qed.

Lemma fedexExpress_single_error_witness : 48 = 48.
Proof.
  apply (fedexExpress_single_error
           (lit "000000000000") (lit "700000000000")
           [] (lit "0000000000") 48 55 48);
    [lia | reflexivity | reflexivity | reflexivity | reflexivity].
Defined.
